(** * Streamlit ECR / ECS deployment stacks: a shallow embedding

    The repository declares cloud infrastructure with the AWS CDK.  Every
    stack constructor is embedded as a function from its props to a record
    of the resources it declares; the few JavaScript run-time operations the
    constructors rely on ([process.env] lookups, template literals, [===],
    [parseInt]) are embedded first. *)

From Stdlib Require Import NArith Ascii String List Bool Lia.
From stdpp Require Import gmap strings.

Open Scope string_scope.
Open Scope N_scope.

(** ** JavaScript values and operations used by the constructors *)

Module Js.

(** A string-typed slot at run time.  The TypeScript types say [string],
    but [process.env.X!] is [undefined] when [X] is not set: the postfix
    [!] is erased by the compiler and does nothing at run time.
    Characters are code units below 256. *)
Inductive Val : Type :=
| undefined
| str (s : string).

(** [ToString], as applied by template literals and by [parseInt]. *)
Definition ToString (v : Val) : string :=
  match v with
  | undefined => "undefined"
  | str s => s
  end.

(** [a === b] on such values. *)
Definition strict_eq (a b : Val) : bool :=
  match a, b with
  | undefined, undefined => true
  | str s, str t => String.eqb s t
  | _, _ => false
  end.

(** Numbers that [parseInt] can return: [NaN], an infinity, or an
    integer-valued double given by sign and magnitude ([Num true 0] is
    the negative zero). *)
Inductive Number : Type :=
| NaN
| Infinity (neg : bool)
| Num (neg : bool) (m : N).

(** A number literal of the source, such as [80]. *)
Definition lit (m : N) : Number := Num false m.

(** Rounding of a non-negative integer to the nearest double, ties to
    even; [None] when the result overflows. *)
Definition round_to_double (m : N) : option N :=
  if m <? 2 ^ 53 then Some m
  else
    let shift := N.log2 m - 52 in
    let q := N.shiftr m shift in
    let r := m mod 2 ^ shift in
    let half := 2 ^ (shift - 1) in
    let q' := if (half <? r) || ((r =? half) && N.odd q) then q + 1 else q in
    let v := N.shiftl q' shift in
    if v <? 2 ^ 1024 then Some v else None.

Definition to_number (neg : bool) (m : N) : Number :=
  match round_to_double m with
  | Some v => Num neg v
  | None => Infinity neg
  end.

(** White space and line terminators (code units below 256): TAB, LF,
    VT, FF, CR, SP, NBSP. *)
Definition is_white_space (c : ascii) : bool :=
  let n := N_of_ascii c in
  ((9 <=? n) && (n <=? 13)) || (n =? 32) || (n =? 160).

Fixpoint trim_start (s : string) : string :=
  match s with
  | String c s' => if is_white_space c then trim_start s' else s
  | EmptyString => EmptyString
  end.

(** Value of a character as a digit: [0-9], then [a-z] and [A-Z] as
    10 to 35. *)
Definition digit_value (c : ascii) : option N :=
  let n := N_of_ascii c in
  if (48 <=? n) && (n <=? 57) then Some (n - 48)
  else if (97 <=? n) && (n <=? 122) then Some (n - 87)
  else if (65 <=? n) && (n <=? 90) then Some (n - 55)
  else None.

Definition radix_digit (R : N) (c : ascii) : option N :=
  match digit_value c with
  | Some d => if d <? R then Some d else None
  | None => None
  end.

(** The digits of the longest prefix of [s] made of radix-[R] digits. *)
Fixpoint digits_prefix (R : N) (s : string) : list N :=
  match s with
  | String c s' =>
      match radix_digit R c with
      | Some d => d :: digits_prefix R s'
      | None => []
      end
  | EmptyString => []
  end.

Definition math_int (R : N) (ds : list N) : N :=
  fold_left (fun acc d => acc * R + d) ds 0.

(** Sign handling of [parseInt]: one leading [-] or [+] is consumed. *)
Definition split_sign (s : string) : bool * string :=
  match s with
  | String c r =>
      if Ascii.eqb c "-" then (true, r)
      else if Ascii.eqb c "+" then (false, r)
      else (false, s)
  | EmptyString => (false, s)
  end.

(** Radix selection of [parseInt(string)] with no radix argument: 16
    after a [0x] or [0X] prefix, which is stripped; 10 otherwise. *)
Definition split_radix (s : string) : N * string :=
  match s with
  | String c (String x r) =>
      if Ascii.eqb c "0" && (Ascii.eqb x "x" || Ascii.eqb x "X")
      then (16, r) else (10, s)
  | _ => (10, s)
  end.

(** [parseInt(v)].  For a numeral of more than 20 significant digits the
    language lets an implementation approximate the later digits; the
    exact value is taken here. *)
Definition parseInt (v : Val) : Number :=
  let inputString := ToString v in
  let '(neg, S1) := split_sign (trim_start inputString) in
  let '(R, S2) := split_radix S1 in
  match digits_prefix R S2 with
  | [] => NaN
  | ds => to_number neg (math_int R ds)
  end.

End Js.

(** ** Construct library: the declarations the stacks hand to the provider *)

Module Cdk.

(** Attributes of a construct that are only known at deployment.  The
    source reads them as properties ([repo.repositoryUri]); at synthesis
    they are placeholders. *)
Inductive Attr : Type :=
| ImageUri
| RepositoryUri
| RepositoryArn
| RepositoryName
| DistributionDomainName.

(** A string of the synthesized template: literal text and placeholders
    for attributes of constructs, named by construct id. *)
Inductive Piece : Type :=
| Lit (s : string)
| Ref (construct : string) (a : Attr).

Definition Text : Type := list Piece.

(** What a text becomes once the provider has assigned the attributes. *)
Definition resolve (rho : string -> Attr -> string) (t : Text) : string :=
  fold_right
    (fun p acc => match p with Lit s => s | Ref c a => rho c a end +:+ acc)
    "" t.

Inductive Duration : Type :=
| days (n : N)
| seconds (n : N).

Record CfnOutput : Type := {
  output_id : string;
  value : Text;
  description : option string;
  exportName : string
}.

(** A nested stack: its construct id, the [stackName] and [description]
    given with the props, and what its constructor declares. *)
Record NestedStack (A : Type) : Type := {
  construct_id : string;
  stackName : string;
  stack_description : string;
  body : A
}.
Arguments construct_id {A} _.
Arguments stackName {A} _.
Arguments stack_description {A} _.
Arguments body {A} _.

End Cdk.

Module Ec2.

(** Modelled from the spec: the network stack
    ([StreamlitVpcDeploymentCdkStack]) is not among the sources; it
    declares an isolated network scoped to the stack and exposes its
    handle.  The handle names the stack that owns the network. *)
Record Vpc : Type := { vpc_owner : string }.

Inductive Peer : Type :=
| anyIpv4
| ipv4 (cidr : string)
| securityGroupId (id : string).

Inductive Port : Type :=
| tcp (port : Js.Number)
| allTraffic.

Record SecurityGroup : Type := {
  id : string;
  vpc : Vpc;
  allowAllOutbound : option bool;
  ingress : list (Peer * Port)
}.

(** [new ec2.SecurityGroup(this, id, { vpc, allowAllOutbound })]. *)
Definition new (id : string) (vpc : Vpc) (allowAllOutbound : option bool)
  : SecurityGroup :=
  {| id := id; vpc := vpc; allowAllOutbound := allowAllOutbound; ingress := [] |}.

(** A security group used as the peer of a rule. *)
Definition peer (sg : SecurityGroup) : Peer := securityGroupId (id sg).

(** [sg.addIngressRule(peer, port)]: the rule is added to the group. *)
Definition addIngressRule (sg : SecurityGroup) (p : Peer) (port : Port)
  : SecurityGroup :=
  {| id := id sg; vpc := vpc sg; allowAllOutbound := allowAllOutbound sg;
     ingress := ingress sg ++ [(p, port)] |}.

End Ec2.

Module Ecr.

Inductive TagStatus : Type := ANY | TAGGED | UNTAGGED.
Inductive RemovalPolicy : Type := DESTROY | RETAIN | SNAPSHOT.
Inductive RepositoryEncryption : Type := AES_256 | KMS.
Inductive Platform : Type := LINUX_AMD64 | LINUX_ARM64.

Record LifecycleRule : Type := {
  maxImageAge : option Cdk.Duration;
  maxImageCount : option N;
  rulePriority : option N;
  tagStatus : option TagStatus
}.

Record Repository : Type := {
  id : string;
  repositoryName : Js.Val;
  removalPolicy : RemovalPolicy;
  emptyOnDelete : bool;
  encryption : RepositoryEncryption;
  lifecycleRules : list LifecycleRule
}.

(** [repo.addLifecycleRule(rule)]. *)
Definition addLifecycleRule (r : Repository) (rule : LifecycleRule) : Repository :=
  {| id := id r; repositoryName := repositoryName r;
     removalPolicy := removalPolicy r; emptyOnDelete := emptyOnDelete r;
     encryption := encryption r;
     lifecycleRules := lifecycleRules r ++ [rule] |}.

Definition repositoryUri (r : Repository) : Cdk.Text := [Cdk.Ref (id r) Cdk.RepositoryUri].
Definition repositoryArn (r : Repository) : Cdk.Text := [Cdk.Ref (id r) Cdk.RepositoryArn].
Definition repositoryNameOf (r : Repository) : Cdk.Text := [Cdk.Ref (id r) Cdk.RepositoryName].

Record DockerImageAsset : Type := {
  asset_id : string;
  directory : string;
  platform : Platform;
  file : string;
  cacheDisabled : bool
}.

Definition imageUri (a : DockerImageAsset) : Cdk.Text := [Cdk.Ref (asset_id a) Cdk.ImageUri].

(** [new ecrDeploy.ECRDeployment(this, id, { src, dest })], with the two
    [DockerImageName]s given by their names. *)
Record ECRDeployment : Type := {
  deployment_id : string;
  src : Cdk.Text;
  dest : Cdk.Text
}.

End Ecr.

(** An HTTP request as the edge function and the load balancer see it. *)
Record HttpRequest : Type := {
  method : string;
  uri : string;
  headers : list (string * string)
}.

Module Ecs.

Inductive CpuArchitecture : Type := ARM64 | X86_64.
Inductive OperatingSystemFamily : Type := LINUX | WINDOWS_SERVER_2019_CORE.
Inductive FargatePlatformVersion : Type := LATEST | VERSION1_4 | VERSION1_3.

Record RuntimePlatform : Type := {
  cpuArchitecture : CpuArchitecture;
  operatingSystemFamily : OperatingSystemFamily
}.

(** [ecs.ContainerImage.fromEcrRepository(repository, tag)]. *)
Record ContainerImage : Type := {
  repository : Ecr.Repository;
  tag : Js.Val
}.

Record TaskImageOptions : Type := {
  image : ContainerImage;
  taskRole : string;
  containerPort : Js.Number;
  enableLogging : bool;
  logDriver_streamPrefix : string
}.

(** The props given to
    [ecs_patterns.ApplicationLoadBalancedFargateService]. *)
Record ApplicationLoadBalancedFargateService : Type := {
  service_id : string;
  cluster : string;
  taskImageOptions : TaskImageOptions;
  loadBalancer : string;
  securityGroups : list string;
  cpu : N;
  memoryLimitMiB : N;
  desiredCount : N;
  platformVersion : FargatePlatformVersion;
  runtimePlatform : RuntimePlatform
}.

End Ecs.

Module Elbv2.

Record ApplicationLoadBalancer : Type := {
  lb_id : string;
  vpc : Ec2.Vpc;
  securityGroup : string;
  internetFacing : bool
}.

(** [fargateService.targetGroup] and [fargateService.listener], named
    by the service that creates them. *)
Inductive TargetGroup : Type := targetGroupOf (service : string).
Inductive Listener : Type := listenerOf (service : string).

Inductive ListenerCondition : Type :=
| httpHeader (name : string) (values : list string)
| pathPatterns (values : list string).

Record RedirectOptions : Type := {
  host : Cdk.Text;
  permanent : bool;
  protocol : string;
  port : string
}.

Inductive ListenerAction : Type :=
| forward (targetGroups : list TargetGroup)
| redirect (options : RedirectOptions)
| fixedResponse (statusCode : N).

Record ApplicationListenerRule : Type := {
  rule_id : string;
  listener : Listener;
  priority : N;
  conditions : list ListenerCondition;
  action : ListenerAction
}.

(** *** Rule evaluation at the load balancer

    The load balancer, not this repository, evaluates the rules.  It is
    modelled as the specification describes it: the rules are tried by
    ascending priority and the first whose conditions all hold decides;
    a header condition is an exact-string comparison of name and value;
    in a path pattern [*] stands for any run of characters and [?] for
    any one character; when no rule matches, the listener's default
    action is taken. *)

Fixpoint wildcard (pattern : string) : string -> bool :=
  match pattern with
  | EmptyString => fun s => match s with EmptyString => true | _ => false end
  | String "*" rest =>
      fix star (s : string) : bool :=
        wildcard rest s
        || match s with
           | String _ s' => star s'
           | EmptyString => false
           end
  | String "?" rest =>
      fun s => match s with String _ s' => wildcard rest s' | EmptyString => false end
  | String c rest =>
      fun s =>
        match s with
        | String d s' => Ascii.eqb c d && wildcard rest s'
        | EmptyString => false
        end
  end.

Definition header_is (name value : string) (h : string * string) : bool :=
  String.eqb (fst h) name && String.eqb (snd h) value.

Definition holds (req : HttpRequest) (c : ListenerCondition) : bool :=
  match c with
  | httpHeader name values =>
      existsb (fun v => existsb (header_is name v) (headers req)) values
  | pathPatterns values =>
      existsb (fun p => wildcard p (uri req)) values
  end.

Definition matches (req : HttpRequest) (r : ApplicationListenerRule) : bool :=
  forallb (holds req) (conditions r).

(** The matching rule of least priority seen so far. *)
Definition better (req : HttpRequest) (best : option ApplicationListenerRule)
  (r : ApplicationListenerRule) : option ApplicationListenerRule :=
  if matches req r then
    match best with
    | Some b => if priority r <? priority b then Some r else best
    | None => Some r
    end
  else best.

Definition route (rules : list ApplicationListenerRule)
  (defaultAction : ListenerAction) (req : HttpRequest) : ListenerAction :=
  match fold_left (better req) rules None with
  | Some r => action r
  | None => defaultAction
  end.

End Elbv2.

Module Cloudfront.

Inductive OriginProtocolPolicy : Type := HTTP_ONLY | HTTPS_ONLY | MATCH_VIEWER.
Inductive ForwardBehavior : Type := all | none.
Inductive ResponseHeadersPolicy : Type :=
| CORS_ALLOW_ALL_ORIGINS
| CORS_ALLOW_ALL_ORIGINS_WITH_PREFLIGHT.
Inductive CachePolicy : Type := CACHING_DISABLED | CACHING_OPTIMIZED.
Inductive AllowedMethods : Type := ALLOW_ALL | ALLOW_GET_HEAD | ALLOW_GET_HEAD_OPTIONS.
Inductive ViewerProtocolPolicy : Type := REDIRECT_TO_HTTPS | VIEWER_HTTPS_ONLY | VIEWER_ALLOW_ALL.
Inductive FunctionEventType : Type := VIEWER_REQUEST | VIEWER_RESPONSE.
Inductive SecurityPolicyProtocol : Type := TLS_V1_2_2019 | TLS_V1_2_2021.

Record OriginRequestPolicy : Type := {
  policy_id : string;
  originRequestPolicyName : string;
  policy_comment : string;
  cookieBehavior : ForwardBehavior;
  headerBehavior : ForwardBehavior;
  queryStringBehavior : ForwardBehavior
}.

(** *** The edge function

    The response object of the inline function: each header name maps
    to its [value]. *)
Record Response : Type := {
  statusCode : N;
  statusDescription : string;
  response_headers : gmap string string
}.

Record Event : Type := { request : HttpRequest }.

(** The handler returns either a response object or the request. *)
Inductive Result : Type :=
| response (r : Response)
| pass (r : HttpRequest).

(** The inline code given to [FunctionCode.fromInline]. *)
Definition handler (event : Event) : Result :=
  if String.eqb (method (request event)) "OPTIONS" then
    response
      {| statusCode := 204;
         statusDescription := "OK";
         response_headers :=
           {[ "access-control-allow-origin" := "*";
              "access-control-allow-headers" := "*" ]} |}
  else pass (request event).

Record Function : Type := {
  function_id : string;
  code : Event -> Result
}.

(** [new LoadBalancerV2Origin(loadBalancer, { protocolPolicy,
    customHeaders })]; [customHeaders] is an object from header names to
    values. *)
Record LoadBalancerV2Origin : Type := {
  origin_loadBalancer : string;
  protocolPolicy : OriginProtocolPolicy;
  customHeaders : gmap string string
}.

Record BehaviorOptions : Type := {
  origin : LoadBalancerV2Origin;
  originRequestPolicy : OriginRequestPolicy;
  responseHeadersPolicy : ResponseHeadersPolicy;
  cachePolicy : CachePolicy;
  allowedMethods : AllowedMethods;
  compress : bool;
  viewerProtocolPolicy : ViewerProtocolPolicy;
  functionAssociations : list (Function * FunctionEventType)
}.

Record Distribution : Type := {
  distribution_id : string;
  defaultBehavior : BehaviorOptions;
  minimumProtocolVersion : SecurityPolicyProtocol;
  comment : string
}.

Definition distributionDomainName (d : Distribution) : Cdk.Text :=
  [Cdk.Ref (distribution_id d) Cdk.DistributionDomainName].

(** *** A viewer request at the edge

    The edge layer, not this repository, serves requests.  It is
    modelled as the specification describes it: the viewer-request
    function runs first and, when it returns a response, the viewer is
    answered without the origin being contacted; otherwise the request
    goes to the origin with the viewer's headers (when the origin
    request policy forwards them) and with the origin's custom headers
    added, a custom header replacing a viewer header of the same
    name. *)

Inductive Outcome : Type :=
| answered (r : Response)
| to_origin (r : HttpRequest).

Fixpoint viewer_request (fs : list (Function * FunctionEventType))
  (req : HttpRequest) : Result :=
  match fs with
  | [] => pass req
  | (f, VIEWER_REQUEST) :: fs' =>
      match code f {| request := req |} with
      | response r => response r
      | pass req' => viewer_request fs' req'
      end
  | (_, VIEWER_RESPONSE) :: fs' => viewer_request fs' req
  end.

Definition origin_headers (b : BehaviorOptions) (req : HttpRequest)
  : list (string * string) :=
  let custom := customHeaders (origin b) in
  let forwarded :=
    match headerBehavior (originRequestPolicy b) with
    | all => headers req
    | none => []
    end in
  map_to_list custom
  ++ List.filter
       (fun h => match custom !! fst h with None => true | Some _ => false end)
       forwarded.

Definition serve (d : Distribution) (req : HttpRequest) : Outcome :=
  let b := defaultBehavior d in
  match viewer_request (functionAssociations b) req with
  | response r => answered r
  | pass req' =>
      to_origin
        {| method := method req'; uri := uri req';
           headers := origin_headers b req' |}
  end.

End Cloudfront.

(** ** Props *)

(** Modelled from the spec: the declaration of [StreamlitBaseStackProps]
    is not among the sources; its fields are the ones the constructors
    read and spread.  [appName] is filled from the environment by the
    top-level stacks, so it is a run-time value. *)
Record StreamlitBaseStackProps : Type := {
  appName : Js.Val;
  environment : string;
  deployRegion : string;
  platformString : string
}.

Record StreamlitEcrStackProps : Type := {
  ecr_base :> StreamlitBaseStackProps;
  repositoryName : Js.Val;
  imageVersion : Js.Val
}.

Record StreamlitEcsStackProps : Type := {
  ecs_base :> StreamlitEcrStackProps;
  containerPort : Js.Number;
  ecrRepository : Ecr.Repository;
  vpc : Ec2.Vpc
}.

(** Modelled from the spec: [LATEST_IMAGE_VERSION] is exported by the
    entry point, which is not among the sources; the specification gives
    the sentinel as [latest]. *)
Definition LATEST_IMAGE_VERSION : string := "latest".

(** The two prefixes that the construct ids share:
    [${props.appName}-${props.environment}] and
    [${props.appName}-${props.environment}-${props.platformString}]. *)
Definition app_env (props : StreamlitBaseStackProps) : string :=
  Js.ToString (appName props) +:+ "-" +:+ environment props.

Definition app_env_platform (props : StreamlitBaseStackProps) : string :=
  app_env props +:+ "-" +:+ platformString props.

(** ** The registry stack *)

Module EcrStack.

Record t : Type := {
  ecrRepository : Ecr.Repository;
  dockerImageAsset : Ecr.DockerImageAsset;
  deployments : list Ecr.ECRDeployment;
  outputs : list Cdk.CfnOutput
}.

End EcrStack.

Definition deployImageVersions (props : StreamlitEcrStackProps) : list Js.Val :=
  if Js.strict_eq (imageVersion props) (Js.str LATEST_IMAGE_VERSION)
  then [imageVersion props]
  else [imageVersion props; Js.str LATEST_IMAGE_VERSION].

(** The constructor of [StreamlitEcrDeploymentCdkStack].  The asset
    directory is relative to the directory of the module. *)
Definition StreamlitEcrDeploymentCdkStack (props : StreamlitEcrStackProps)
  : EcrStack.t :=
  let created :=
    {| Ecr.id := app_env_platform props +:+ "-DockerImageEcrRepository";
       Ecr.repositoryName := repositoryName props;
       Ecr.removalPolicy := Ecr.DESTROY;
       Ecr.emptyOnDelete := true;
       Ecr.encryption := Ecr.AES_256;
       Ecr.lifecycleRules := [] |} in
  let with_rule1 :=
    Ecr.addLifecycleRule created
      {| Ecr.maxImageAge := Some (Cdk.days 7); Ecr.maxImageCount := None;
         Ecr.rulePriority := Some 1; Ecr.tagStatus := Some Ecr.UNTAGGED |} in
  let ecrRepository :=
    Ecr.addLifecycleRule with_rule1
      {| Ecr.maxImageAge := None; Ecr.maxImageCount := Some 4;
         Ecr.rulePriority := Some 2; Ecr.tagStatus := Some Ecr.ANY |} in
  let dockerImageAsset :=
    {| Ecr.asset_id := app_env props +:+ "-DockerImageAsset";
       Ecr.directory := "../coreservices";
       Ecr.platform :=
         if String.eqb (platformString props) "arm"
         then Ecr.LINUX_ARM64 else Ecr.LINUX_AMD64;
       Ecr.file := "Dockerfile";
       Ecr.cacheDisabled := true |} in
  let deployments :=
    map
      (fun deployImageVersion =>
         {| Ecr.deployment_id :=
              app_env props +:+ "-" +:+ Js.ToString deployImageVersion
              +:+ "-ECRDeployment";
            Ecr.src := Ecr.imageUri dockerImageAsset;
            Ecr.dest :=
              (Ecr.repositoryUri ecrRepository
               ++ [Cdk.Lit ":"; Cdk.Lit (Js.ToString deployImageVersion)])%list |})
      (deployImageVersions props) in
  {| EcrStack.ecrRepository := ecrRepository;
     EcrStack.dockerImageAsset := dockerImageAsset;
     EcrStack.deployments := deployments;
     EcrStack.outputs :=
       [ {| Cdk.output_id := app_env_platform props +:+ "-ECRRepositoryArn";
            Cdk.value := Ecr.repositoryArn ecrRepository;
            Cdk.description := None;
            Cdk.exportName := app_env_platform props +:+ "-ECRRepositoryArn" |};
         {| Cdk.output_id := app_env_platform props +:+ "-ECRRepositoryName";
            Cdk.value := Ecr.repositoryNameOf ecrRepository;
            Cdk.description := None;
            Cdk.exportName := app_env_platform props +:+ "-ECRRepositoryName" |} ] |}.

(** ** The compute stack with the edge distribution *)

Module FargateStack.

Record t : Type := {
  loadBalancerSecurityGroup : Ec2.SecurityGroup;
  ecsSecurityGroup : Ec2.SecurityGroup;
  loadBalancer : Elbv2.ApplicationLoadBalancer;
  fargateService : Ecs.ApplicationLoadBalancedFargateService;
  corsFunction : Cloudfront.Function;
  customHeaderName : string;
  customHeaderValue : string;
  streamlitDistribution : Cloudfront.Distribution;
  listenerRules : list Elbv2.ApplicationListenerRule;
  outputs : list Cdk.CfnOutput
}.

End FargateStack.

(** The constructor of [CdkFargateFrontWithVpcDeploymentStack].  The
    sources hold two constructors of that name; this is the second, the
    one that declares the custom header and the listener rules (the first
    declares neither, and its output is the bare domain).  The task role's
    policies, the cluster name, the autoscaling policy and the health
    check are declared by the constructor as well; no definition below
    depends on them and they are left out. *)
Definition CdkFargateFrontWithVpcDeploymentStack (props : StreamlitEcsStackProps)
  : FargateStack.t :=
  let containerPort := containerPort props in
  let existingVpc := vpc props in
  let loadBalancerSecurityGroup :=
    Ec2.addIngressRule
      (Ec2.new (app_env_platform props +:+ "-Streamlit-ALB-SecGrp") existingVpc None)
      (Ec2.ipv4 "0.0.0.0/0") (Ec2.tcp (Js.lit 80)) in
  let ecs0 := Ec2.new "Streamlit-ECS-SecurityGroup" existingVpc (Some true) in
  let ecs1 :=
    Ec2.addIngressRule ecs0 (Ec2.peer loadBalancerSecurityGroup) (Ec2.tcp (Js.lit 80)) in
  let ecs2 :=
    Ec2.addIngressRule ecs1 (Ec2.peer loadBalancerSecurityGroup) (Ec2.tcp containerPort) in
  let ecsSecurityGroup := Ec2.addIngressRule ecs2 (Ec2.peer ecs2) Ec2.allTraffic in
  let cluster := app_env_platform props +:+ "-DeploymentCluster" in
  let taskRole := app_env_platform props +:+ "-ecsTaskExecutionRole" in
  let loadBalancer :=
    {| Elbv2.lb_id := app_env_platform props +:+ "-StreamlitLoadBalancer";
       Elbv2.vpc := vpc props;
       Elbv2.securityGroup := Ec2.id loadBalancerSecurityGroup;
       Elbv2.internetFacing := true |} in
  let fargateService :=
    {| Ecs.service_id := app_env_platform props +:+ "-FargateService";
       Ecs.cluster := cluster;
       Ecs.taskImageOptions :=
         {| Ecs.image :=
              {| Ecs.repository := ecrRepository props;
                 Ecs.tag := imageVersion props |};
            Ecs.taskRole := taskRole;
            Ecs.containerPort := containerPort;
            Ecs.enableLogging := true;
            Ecs.logDriver_streamPrefix := app_env_platform props |};
       Ecs.loadBalancer := Elbv2.lb_id loadBalancer;
       Ecs.securityGroups := [Ec2.id ecsSecurityGroup];
       Ecs.cpu := 1024;
       Ecs.memoryLimitMiB := 2048;
       Ecs.desiredCount := 1;
       Ecs.platformVersion := Ecs.LATEST;
       Ecs.runtimePlatform :=
         {| Ecs.cpuArchitecture :=
              if String.eqb (platformString props) "arm"
              then Ecs.ARM64 else Ecs.X86_64;
            Ecs.operatingSystemFamily := Ecs.LINUX |} |} in
  let streamlitOriginRequestPolicy :=
    {| Cloudfront.policy_id := app_env_platform props +:+ "-OriginRequestPolicy";
       Cloudfront.originRequestPolicyName := "StreamlitPolicy";
       Cloudfront.policy_comment := "Policy optimised for Streamlit";
       Cloudfront.cookieBehavior := Cloudfront.all;
       Cloudfront.headerBehavior := Cloudfront.all;
       Cloudfront.queryStringBehavior := Cloudfront.all |} in
  let corsFunction :=
    {| Cloudfront.function_id := app_env_platform props +:+ "-CorsFunction";
       Cloudfront.code := Cloudfront.handler |} in
  let customHeaderName := "X-Verify-Origin" in
  let customHeaderValue :=
    Js.ToString (appName props) +:+ "-StreamlitCloudFrontDistribution" in
  let streamlitDistribution :=
    {| Cloudfront.distribution_id := app_env_platform props +:+ "-StreamlitDistribution";
       Cloudfront.defaultBehavior :=
         {| Cloudfront.origin :=
              {| Cloudfront.origin_loadBalancer := Elbv2.lb_id loadBalancer;
                 Cloudfront.protocolPolicy := Cloudfront.HTTP_ONLY;
                 Cloudfront.customHeaders :=
                   {[ "custom_header_name" := customHeaderValue ]} |};
            Cloudfront.originRequestPolicy := streamlitOriginRequestPolicy;
            Cloudfront.responseHeadersPolicy := Cloudfront.CORS_ALLOW_ALL_ORIGINS;
            Cloudfront.cachePolicy := Cloudfront.CACHING_DISABLED;
            Cloudfront.allowedMethods := Cloudfront.ALLOW_ALL;
            Cloudfront.compress := true;
            Cloudfront.viewerProtocolPolicy := Cloudfront.REDIRECT_TO_HTTPS;
            Cloudfront.functionAssociations :=
              [ (corsFunction, Cloudfront.VIEWER_REQUEST) ] |};
       Cloudfront.minimumProtocolVersion := Cloudfront.TLS_V1_2_2021;
       Cloudfront.comment :=
         "CloudFront distribution for Streamlit frontend application." |} in
  let listenerRules :=
    [ {| Elbv2.rule_id :=
           app_env_platform props +:+ "-elbv2-StreamlitApplicationListenerRule";
         Elbv2.listener := Elbv2.listenerOf (Ecs.service_id fargateService);
         Elbv2.priority := 1;
         Elbv2.conditions := [Elbv2.httpHeader customHeaderName [customHeaderValue]];
         Elbv2.action :=
           Elbv2.forward [Elbv2.targetGroupOf (Ecs.service_id fargateService)] |};
      {| Elbv2.rule_id :=
           app_env_platform props +:+ "-elbv2-RedirectApplicationListenerRule";
         Elbv2.listener := Elbv2.listenerOf (Ecs.service_id fargateService);
         Elbv2.priority := 5;
         Elbv2.conditions := [Elbv2.pathPatterns ["*"]];
         Elbv2.action :=
           Elbv2.redirect
             {| Elbv2.host := Cloudfront.distributionDomainName streamlitDistribution;
                Elbv2.permanent := true;
                Elbv2.protocol := "HTTPS";
                Elbv2.port := "443" |} |} ] in
  {| FargateStack.loadBalancerSecurityGroup := loadBalancerSecurityGroup;
     FargateStack.ecsSecurityGroup := ecsSecurityGroup;
     FargateStack.loadBalancer := loadBalancer;
     FargateStack.fargateService := fargateService;
     FargateStack.corsFunction := corsFunction;
     FargateStack.customHeaderName := customHeaderName;
     FargateStack.customHeaderValue := customHeaderValue;
     FargateStack.streamlitDistribution := streamlitDistribution;
     FargateStack.listenerRules := listenerRules;
     FargateStack.outputs :=
       [ {| Cdk.output_id := app_env_platform props +:+ "-StreamlitURL";
            Cdk.value :=
              Cdk.Lit "https://"
              :: Cloudfront.distributionDomainName streamlitDistribution;
            Cdk.description := Some "Streamlit CloudFront Distribution URL.";
            Cdk.exportName :=
              app_env_platform props +:+ "-StreamlitDistributionURL" |} ] |}.

(** The listener that the rules are attached to is created by the
    load-balanced service pattern, with the service's target group as its
    default action. *)
Definition listenerDefaultAction (s : FargateStack.t) : Elbv2.ListenerAction :=
  Elbv2.forward [Elbv2.targetGroupOf (Ecs.service_id (FargateStack.fargateService s))].

(** What the load balancer of the stack does with a request. *)
Definition at_load_balancer (s : FargateStack.t) (req : HttpRequest)
  : Elbv2.ListenerAction :=
  Elbv2.route (FargateStack.listenerRules s) (listenerDefaultAction s) req.

(** What happens to a viewer request sent to the edge distribution of the
    stack: answered at the edge, or passed on to the load balancer. *)
Definition through_edge (s : FargateStack.t) (req : HttpRequest)
  : Cloudfront.Response + Elbv2.ListenerAction :=
  match Cloudfront.serve (FargateStack.streamlitDistribution s) req with
  | Cloudfront.answered r => inl r
  | Cloudfront.to_origin req' => inr (at_load_balancer s req')
  end.

(** ** The top-level stacks *)

(** How the evaluation of an expression or a constructor body ends. *)
Inductive Completion (A : Type) : Type :=
| normal (a : A)
| throw (error : string).
Arguments normal {A} _.
Arguments throw {A} _.

#[global] Instance Completion_ret : MRet Completion := fun _ a => normal a.
#[global] Instance Completion_bind : MBind Completion :=
  fun _ _ f m => match m with normal a => f a | throw e => throw e end.

(** [process.env.NAME]: the value of the variable, or [undefined]. *)
Definition process_env (env : gmap string string) (name : string) : Js.Val :=
  match env !! name with
  | Some s => Js.str s
  | None => Js.undefined
  end.

(** The postfix [!] of TypeScript.  It only informs the type checker and
    is erased from the emitted code: [e!] completes with the value of
    [e], whatever it is. *)
Definition non_null {A : Type} (v : A) : Completion A := normal v.

Record IEnvTypes : Type := {
  ECR_REPOSITORY_NAME : Js.Val;
  APP_NAME : Js.Val;
  IMAGE_VERSION : Js.Val;
  PORT : Js.Val
}.

(** The four inputs that the constructors read from the environment. *)
Definition required_inputs : list string :=
  ["ECR_REPOSITORY_NAME"; "APP_NAME"; "IMAGE_VERSION"; "PORT"].

Definition envTyped (env : gmap string string) : Completion IEnvTypes :=
  repository ← non_null (process_env env "ECR_REPOSITORY_NAME");
  app ← non_null (process_env env "APP_NAME");
  version ← non_null (process_env env "IMAGE_VERSION");
  port ← non_null (process_env env "PORT");
  mret {| ECR_REPOSITORY_NAME := repository; APP_NAME := app;
          IMAGE_VERSION := version; PORT := port |}.

Definition ecrStackProps (envTyped : IEnvTypes) (props : StreamlitBaseStackProps)
  : StreamlitEcrStackProps :=
  {| ecr_base :=
       {| appName := APP_NAME envTyped;
          environment := environment props;
          deployRegion := deployRegion props;
          platformString := platformString props |};
     repositoryName := ECR_REPOSITORY_NAME envTyped;
     imageVersion := IMAGE_VERSION envTyped |}.

(** [${envTyped.APP_NAME}-${props.environment}-${props.deployRegion}-],
    followed by the name of the nested stack. *)
Definition nested_id (envTyped : IEnvTypes) (props : StreamlitBaseStackProps)
  (name : string) : string :=
  Js.ToString (APP_NAME envTyped) +:+ "-" +:+ environment props +:+ "-"
  +:+ deployRegion props +:+ "-" +:+ name.

Definition nested_description (kind : string) (props : StreamlitBaseStackProps)
  : string :=
  "Streamlit " +:+ kind +:+ " deployment stack for " +:+ environment props
  +:+ " environment in " +:+ deployRegion props +:+ " region.".

Definition nested {A : Type} (envTyped : IEnvTypes) (props : StreamlitBaseStackProps)
  (name kind : string) (body : A) : Cdk.NestedStack A :=
  {| Cdk.construct_id := nested_id envTyped props name;
     Cdk.stackName := nested_id envTyped props name;
     Cdk.stack_description := nested_description kind props;
     Cdk.body := body |}.

Definition ecsStackProps (envTyped : IEnvTypes) (props : StreamlitBaseStackProps)
  (ecrStack : Cdk.NestedStack EcrStack.t) (vpcStack : Cdk.NestedStack Ec2.Vpc)
  : StreamlitEcsStackProps :=
  {| ecs_base := ecrStackProps envTyped props;
     containerPort := Js.parseInt (PORT envTyped);
     ecrRepository := EcrStack.ecrRepository (Cdk.body ecrStack);
     vpc := Cdk.body vpcStack |}.

Module Deployment.

(** What a top-level stack declares: the registry stack, the network
    stack, and the compute stack built from [ecsStackProps]. *)
Record t (Compute : Type) : Type := {
  ecrStack : Cdk.NestedStack EcrStack.t;
  vpcStack : Cdk.NestedStack Ec2.Vpc;
  computeProps : StreamlitEcsStackProps;
  computeStack : Cdk.NestedStack Compute
}.
Arguments ecrStack {Compute} _.
Arguments vpcStack {Compute} _.
Arguments computeProps {Compute} _.
Arguments computeStack {Compute} _.

End Deployment.

(** The construct library validates what it is given when a stack and the
    constructs in it are created (a repository name, a stack name, a
    port) and throws on what it rejects.  Its rules are not in the
    sources: [Library] stands for them, with one answer for the stack
    itself and one for each nested stack, the message thrown, if any, for
    the id and the props at hand. *)
Record Library : Type := {
  stack_error : string -> StreamlitBaseStackProps -> option string;
  registry_error : string -> StreamlitEcrStackProps -> option string;
  network_error : string -> StreamlitEcrStackProps -> option string;
  compute_error : string -> StreamlitEcsStackProps -> option string
}.

(** [super(scope, id, props)]: what the library throws, or nothing. *)
Definition super (error : option string) : Completion unit :=
  match error with
  | Some e => throw e
  | None => normal tt
  end.

(** [new SomeStack(this, id, props)]: what the library throws, or the
    nested stack. *)
Definition created {A : Type} (error : option string) (stack : Cdk.NestedStack A)
  : Completion (Cdk.NestedStack A) :=
  match error with
  | Some e => throw e
  | None => normal stack
  end.

(** The part that the two top-level constructors have in common, after
    the environment is read: the registry stack is made, then the network
    stack. *)
Definition registry_and_network (lib : Library) (envTyped : IEnvTypes)
  (props : StreamlitBaseStackProps)
  : Completion (Cdk.NestedStack EcrStack.t * Cdk.NestedStack Ec2.Vpc) :=
  let ecrStackProps := ecrStackProps envTyped props in
  let ecrId := nested_id envTyped props "StreamlitEcrDeploymentCdkStack" in
  ecrStack ←
    created (registry_error lib ecrId ecrStackProps)
      (nested envTyped props "StreamlitEcrDeploymentCdkStack" "ECR"
         (StreamlitEcrDeploymentCdkStack ecrStackProps));
  let vpcId := nested_id envTyped props "StreamlitVpcDeploymentCdkStack" in
  vpcStack ←
    created (network_error lib vpcId ecrStackProps)
      (nested envTyped props "StreamlitVpcDeploymentCdkStack" "VPC"
         {| Ec2.vpc_owner := vpcId |});
  mret (ecrStack, vpcStack).

(** The constructor of [CdkStreamlitFargateDeploymentStack]; the ambient
    [process.env] and the library are arguments.  The statements run in
    the order of the source, and the first throw ends the constructor. *)
Definition CdkStreamlitFargateDeploymentStack (lib : Library)
  (env : gmap string string) (id : string) (props : StreamlitBaseStackProps)
  : Completion (Deployment.t FargateStack.t) :=
  _ ← super (stack_error lib id props);
  envTyped ← envTyped env;
  stacks ← registry_and_network lib envTyped props;
  let '(ecrStack, vpcStack) := stacks in
  let ecsStackProps := ecsStackProps envTyped props ecrStack vpcStack in
  let computeId :=
    nested_id envTyped props "CdkFargateCloudFrontWithVpcDeploymentStack" in
  computeStack ←
    created (compute_error lib computeId ecsStackProps)
      (nested envTyped props "CdkFargateCloudFrontWithVpcDeploymentStack"
         "App Runner"
         (CdkFargateFrontWithVpcDeploymentStack ecsStackProps));
  mret
    {| Deployment.ecrStack := ecrStack;
       Deployment.vpcStack := vpcStack;
       Deployment.computeProps := ecsStackProps;
       Deployment.computeStack := computeStack |}.

Section AppRunner.

(** The App Runner stack that the other top-level constructor makes is
    not among the sources: its constructor is a parameter, from the id and
    the props to what it declares or to what it throws. *)
Context {AppRunnerStack : Type}.
Variable CdkAppRunnerWithVpcDeploymentStack :
  string -> StreamlitEcsStackProps -> Completion AppRunnerStack.

(** The constructor of [CdkStreamlitEcrEcsAppRunnerDeploymentStack]. *)
Definition CdkStreamlitEcrEcsAppRunnerDeploymentStack (lib : Library)
  (env : gmap string string) (id : string) (props : StreamlitBaseStackProps)
  : Completion (Deployment.t AppRunnerStack) :=
  _ ← super (stack_error lib id props);
  envTyped ← envTyped env;
  stacks ← registry_and_network lib envTyped props;
  let '(ecrStack, vpcStack) := stacks in
  let ecsStackProps := ecsStackProps envTyped props ecrStack vpcStack in
  let computeId := nested_id envTyped props "CdkAppRunnerWithVpcDeploymentStack" in
  appRunner ← CdkAppRunnerWithVpcDeploymentStack computeId ecsStackProps;
  mret
    {| Deployment.ecrStack := ecrStack;
       Deployment.vpcStack := vpcStack;
       Deployment.computeProps := ecsStackProps;
       Deployment.computeStack :=
         nested envTyped props "CdkAppRunnerWithVpcDeploymentStack" "App Runner"
           appRunner |}.

End AppRunner.

(** What the environment record holds once the environment is read. *)
Definition read (env : gmap string string) : IEnvTypes :=
  {| ECR_REPOSITORY_NAME := process_env env "ECR_REPOSITORY_NAME";
     APP_NAME := process_env env "APP_NAME";
     IMAGE_VERSION := process_env env "IMAGE_VERSION";
     PORT := process_env env "PORT" |}.

(** The registry and network stacks, and the compute props made from
    them, that a top-level constructor has made once it is past them. *)
Definition registry_of (r : IEnvTypes) (props : StreamlitBaseStackProps)
  : Cdk.NestedStack EcrStack.t :=
  nested r props "StreamlitEcrDeploymentCdkStack" "ECR"
    (StreamlitEcrDeploymentCdkStack (ecrStackProps r props)).

Definition network_of (r : IEnvTypes) (props : StreamlitBaseStackProps)
  : Cdk.NestedStack Ec2.Vpc :=
  nested r props "StreamlitVpcDeploymentCdkStack" "VPC"
    {| Ec2.vpc_owner := nested_id r props "StreamlitVpcDeploymentCdkStack" |}.

Definition compute_props_of (r : IEnvTypes) (props : StreamlitBaseStackProps)
  : StreamlitEcsStackProps :=
  ecsStackProps r props (registry_of r props) (network_of r props).

(** The message is one that the library throws for the stack of the
    Fargate constructor or for one of its nested stacks. *)
Definition thrown_by_library (lib : Library) (id : string) (r : IEnvTypes)
  (props : StreamlitBaseStackProps) (e : string) : Prop :=
  stack_error lib id props = Some e
  \/ registry_error lib (nested_id r props "StreamlitEcrDeploymentCdkStack")
    (ecrStackProps r props) = Some e
  \/ network_error lib (nested_id r props "StreamlitVpcDeploymentCdkStack")
       (ecrStackProps r props) = Some e
  \/ compute_error lib
       (nested_id r props "CdkFargateCloudFrontWithVpcDeploymentStack")
       (compute_props_of r props) = Some e.

(** The library throws nothing for the stack of the Fargate constructor
    and its nested stacks. *)
Definition accepted_by_library (lib : Library) (id : string) (r : IEnvTypes)
  (props : StreamlitBaseStackProps) : Prop :=
  stack_error lib id props = None
  /\ registry_error lib (nested_id r props "StreamlitEcrDeploymentCdkStack")
       (ecrStackProps r props) = None
  /\ network_error lib (nested_id r props "StreamlitVpcDeploymentCdkStack")
       (ecrStackProps r props) = None
  /\ compute_error lib
       (nested_id r props "CdkFargateCloudFrontWithVpcDeploymentStack")
       (compute_props_of r props) = None.

(** A library that rejects nothing, and one that rejects only repository
    names of fewer than two characters, as the construct library does. *)
Definition lenient : Library :=
  {| stack_error := fun _ _ => None;
     registry_error := fun _ _ => None;
     network_error := fun _ _ => None;
     compute_error := fun _ _ => None |}.

Definition short_names_rejected : Library :=
  {| stack_error := fun _ _ => None;
     registry_error :=
       fun _ props =>
         match repositoryName props with
         | Js.str name =>
             if (String.length name <? 2)%nat
             then Some "Repository name must be at least 2 and no more than 256 characters"
             else None
         | Js.undefined => None
         end;
     network_error := fun _ _ => None;
     compute_error := fun _ _ => None |}.

(** ** A sample configuration *)

Definition demo_env : gmap string string :=
  {[ "ECR_REPOSITORY_NAME" := "demo-repository";
     "APP_NAME" := "demo";
     "IMAGE_VERSION" := "1.2.0";
     "PORT" := "8501";
     "PLATFORMS" := "LINUX_ARM64" ]}.

Definition demo_id : string := "StreamlitFargateDeploymentStack".

Definition demo_props : StreamlitBaseStackProps :=
  {| appName := Js.str "demo"; environment := "dev";
     deployRegion := "eu-west-1"; platformString := "arm" |}.

Definition demo_ecr_props (version : string) : StreamlitEcrStackProps :=
  {| ecr_base := demo_props;
     repositoryName := Js.str "demo-repository";
     imageVersion := Js.str version |}.

Definition demo_ecs_props : StreamlitEcsStackProps :=
  {| ecs_base := demo_ecr_props "1.2.0";
     containerPort := Js.lit 8501;
     ecrRepository := EcrStack.ecrRepository (StreamlitEcrDeploymentCdkStack (demo_ecr_props "1.2.0"));
     vpc := {| Ec2.vpc_owner := "demo-dev-eu-west-1-StreamlitVpcDeploymentCdkStack" |} |}.

(** The destination of a push: the repository address, a colon, the tag. *)
Definition tagged (r : Ecr.Repository) (tag : string) : Cdk.Text :=
  [Cdk.Ref (Ecr.id r) Cdk.RepositoryUri; Cdk.Lit ":"; Cdk.Lit tag].

(** ** Numerals, as a reader of the text would describe them

    A numeral is a run of decimal digits, or [0x] or [0X] followed by a
    run of hexadecimal digits; it may be preceded by white space and one
    sign.  Its value is the positional one. *)

Module Numeral.

Inductive Sign : Type := no_sign | plus | minus.

Definition sign_text (sg : Sign) : string :=
  match sg with no_sign => "" | plus => "+" | minus => "-" end.

Definition negative (sg : Sign) : bool :=
  match sg with minus => true | _ => false end.

Definition signed (sg : Sign) : bool :=
  match sg with no_sign => false | _ => true end.

Definition is_decimal (c : ascii) : bool :=
  let n := N_of_ascii c in (48 <=? n) && (n <=? 57).


Definition is_space_or_sign (c : ascii) : bool :=
  Js.is_white_space c || Ascii.eqb c "+" || Ascii.eqb c "-".

Definition decimal_digit (c : ascii) : N := N_of_ascii c - 48.


Fixpoint every (p : ascii -> bool) (s : string) : bool :=
  match s with
  | String c s' => p c && every p s'
  | EmptyString => true
  end.

Definition starts_with (p : ascii -> bool) (s : string) : bool :=
  match s with
  | String c _ => p c
  | EmptyString => false
  end.

(** The value of a run of digits in radix [R]. *)
Fixpoint positional (R : N) (digit : ascii -> N) (s : string) : N :=
  match s with
  | String c s' =>
      digit c * R ^ N.of_nat (String.length s') + positional R digit s'
  | EmptyString => 0
  end.

(** The text begins with [0x] or [0X]. *)
Definition hex_marked (s : string) : bool :=
  let start := String.substring 0 2 s in
  String.eqb start "0x" || String.eqb start "0X".

End Numeral.

(** The field of the environment record that holds a named input. *)
Definition input (r : IEnvTypes) (name : string) : Js.Val :=
  if String.eqb name "ECR_REPOSITORY_NAME" then ECR_REPOSITORY_NAME r
  else if String.eqb name "APP_NAME" then APP_NAME r
  else if String.eqb name "IMAGE_VERSION" then IMAGE_VERSION r
  else if String.eqb name "PORT" then PORT r
  else Js.undefined.



(** ** The compute stack without the gate

    The first of the two constructors named
    [CdkFargateFrontWithVpcDeploymentStack] in the sources.  It sets fewer
    fields than the second: the records below have exactly the fields it
    sets. *)

Module PlainStack.

Record Behavior : Type := {
  origin : Cloudfront.LoadBalancerV2Origin;
  originRequestPolicy : Cloudfront.OriginRequestPolicy;
  responseHeadersPolicy : Cloudfront.ResponseHeadersPolicy;
  cachePolicy : Cloudfront.CachePolicy;
  allowedMethods : Cloudfront.AllowedMethods;
  functionAssociations : list (Cloudfront.Function * Cloudfront.FunctionEventType)
}.

Record Distribution : Type := {
  distribution_id : string;
  defaultBehavior : Behavior;
  minimumProtocolVersion : Cloudfront.SecurityPolicyProtocol
}.

Definition distributionDomainName (d : Distribution) : Cdk.Text :=
  [Cdk.Ref (distribution_id d) Cdk.DistributionDomainName].

Record t : Type := {
  httpSG : Ec2.SecurityGroup;
  httpsSG : Ec2.SecurityGroup;
  loadBalancerSecurityGroup : Ec2.SecurityGroup;
  ecsSecurityGroup : Ec2.SecurityGroup;
  loadBalancer : Elbv2.ApplicationLoadBalancer;
  fargateService : Ecs.ApplicationLoadBalancedFargateService;
  publicLoadBalancer : bool;
  cors : Cloudfront.Function;
  streamlitDistribution : Distribution;
  listenerRules : list Elbv2.ApplicationListenerRule;
  outputs : list Cdk.CfnOutput
}.

(** The constructor.  The origin is given no [customHeaders] (the empty
    object here) and no listener rule is declared; [publicLoadBalancer] is
    a prop of the service that only this constructor sets.  As for the
    second constructor, the task role's policies, the cluster name, the
    autoscaling policy and the health check are left out. *)
Definition CdkFargateFrontWithVpcDeploymentStack (props : StreamlitEcsStackProps) : t :=
  let containerPort := containerPort props in
  let existingVpc := vpc props in
  let httpSG :=
    Ec2.addIngressRule
      (Ec2.new (app_env_platform props +:+ "-HttpSG") existingVpc (Some true))
      Ec2.anyIpv4 (Ec2.tcp (Js.lit 80)) in
  let httpsSG :=
    Ec2.addIngressRule
      (Ec2.new (app_env_platform props +:+ "-HttpsSG") existingVpc (Some true))
      Ec2.anyIpv4 (Ec2.tcp (Js.lit 443)) in
  let loadBalancerSecurityGroup :=
    Ec2.addIngressRule
      (Ec2.new "Streamlit-ALB-SecurityGroup" existingVpc None)
      (Ec2.ipv4 "0.0.0.0/0") (Ec2.tcp (Js.lit 80)) in
  let ecs0 := Ec2.new "Streamlit-ECS-SecurityGroup" existingVpc (Some true) in
  let ecs1 :=
    Ec2.addIngressRule ecs0 (Ec2.peer loadBalancerSecurityGroup) (Ec2.tcp (Js.lit 80)) in
  let ecs2 :=
    Ec2.addIngressRule ecs1 (Ec2.peer loadBalancerSecurityGroup) (Ec2.tcp containerPort) in
  let ecsSecurityGroup := Ec2.addIngressRule ecs2 (Ec2.peer ecs2) Ec2.allTraffic in
  let cluster := app_env_platform props +:+ "-DeploymentCluster" in
  let taskRole := "ecsTaskExecutionRole" in
  let loadBalancer :=
    {| Elbv2.lb_id := "StreamlitLoadBalancer";
       Elbv2.vpc := vpc props;
       Elbv2.securityGroup := Ec2.id loadBalancerSecurityGroup;
       Elbv2.internetFacing := true |} in
  let fargateService :=
    {| Ecs.service_id := app_env_platform props +:+ "-FargateService";
       Ecs.cluster := cluster;
       Ecs.taskImageOptions :=
         {| Ecs.image :=
              {| Ecs.repository := ecrRepository props;
                 Ecs.tag := imageVersion props |};
            Ecs.taskRole := taskRole;
            Ecs.containerPort := containerPort;
            Ecs.enableLogging := true;
            Ecs.logDriver_streamPrefix := app_env_platform props |};
       Ecs.loadBalancer := Elbv2.lb_id loadBalancer;
       Ecs.securityGroups := [Ec2.id ecsSecurityGroup];
       Ecs.cpu := 1024;
       Ecs.memoryLimitMiB := 2048;
       Ecs.desiredCount := 1;
       Ecs.platformVersion := Ecs.VERSION1_4;
       Ecs.runtimePlatform :=
         {| Ecs.cpuArchitecture :=
              if String.eqb (platformString props) "arm"
              then Ecs.ARM64 else Ecs.X86_64;
            Ecs.operatingSystemFamily := Ecs.LINUX |} |} in
  let streamlitOriginRequestPolicy :=
    {| Cloudfront.policy_id := app_env_platform props +:+ "-OriginRequestPolicy";
       Cloudfront.originRequestPolicyName := "StreamlitPolicy";
       Cloudfront.policy_comment := "Policy optimised for Streamlit";
       Cloudfront.cookieBehavior := Cloudfront.all;
       Cloudfront.headerBehavior := Cloudfront.all;
       Cloudfront.queryStringBehavior := Cloudfront.all |} in
  let cors :=
    {| Cloudfront.function_id := app_env_platform props +:+ "-CorsFunction";
       Cloudfront.code := Cloudfront.handler |} in
  let streamlitDistribution :=
    {| distribution_id := app_env_platform props +:+ "-StreamlitDistribution";
       defaultBehavior :=
         {| origin :=
              {| Cloudfront.origin_loadBalancer := Elbv2.lb_id loadBalancer;
                 Cloudfront.protocolPolicy := Cloudfront.HTTP_ONLY;
                 Cloudfront.customHeaders := ∅ |};
            originRequestPolicy := streamlitOriginRequestPolicy;
            responseHeadersPolicy := Cloudfront.CORS_ALLOW_ALL_ORIGINS_WITH_PREFLIGHT;
            cachePolicy := Cloudfront.CACHING_DISABLED;
            allowedMethods := Cloudfront.ALLOW_ALL;
            functionAssociations := [ (cors, Cloudfront.VIEWER_REQUEST) ] |};
       minimumProtocolVersion := Cloudfront.TLS_V1_2_2019 |} in
  {| httpSG := httpSG;
     httpsSG := httpsSG;
     loadBalancerSecurityGroup := loadBalancerSecurityGroup;
     ecsSecurityGroup := ecsSecurityGroup;
     loadBalancer := loadBalancer;
     fargateService := fargateService;
     publicLoadBalancer := true;
     cors := cors;
     streamlitDistribution := streamlitDistribution;
     listenerRules := [];
     outputs :=
       [ {| Cdk.output_id := app_env_platform props +:+ "-StreamlitURL";
            Cdk.value := distributionDomainName streamlitDistribution;
            Cdk.description := Some "Streamlit Distribution URL";
            Cdk.exportName :=
              app_env_platform props +:+ "-StreamlitDistributionURL" |} ] |}.

(** The edge and the load balancer of this stack, as for the gated one:
    the viewer-request function, then the origin request with the
    viewer's headers and the origin's custom headers, then the listener,
    whose default action is the service's target group. *)
Definition origin_headers (b : Behavior) (req : HttpRequest) : list (string * string) :=
  let custom := Cloudfront.customHeaders (origin b) in
  let forwarded :=
    match Cloudfront.headerBehavior (originRequestPolicy b) with
    | Cloudfront.all => headers req
    | Cloudfront.none => []
    end in
  map_to_list custom
  ++ List.filter
       (fun h => match custom !! fst h with None => true | Some _ => false end)
       forwarded.

Definition serve (d : Distribution) (req : HttpRequest) : Cloudfront.Outcome :=
  let b := defaultBehavior d in
  match Cloudfront.viewer_request (functionAssociations b) req with
  | Cloudfront.response r => Cloudfront.answered r
  | Cloudfront.pass req' =>
      Cloudfront.to_origin
        {| method := method req'; uri := uri req';
           headers := origin_headers b req' |}
  end.

Definition at_load_balancer (s : t) (req : HttpRequest) : Elbv2.ListenerAction :=
  Elbv2.route (listenerRules s)
    (Elbv2.forward [Elbv2.targetGroupOf (Ecs.service_id (fargateService s))]) req.

Definition through_edge (s : t) (req : HttpRequest)
  : Cloudfront.Response + Elbv2.ListenerAction :=
  match serve (streamlitDistribution s) req with
  | Cloudfront.answered r => inl r
  | Cloudfront.to_origin req' => inr (at_load_balancer s req')
  end.

End PlainStack.

(** ** The construct ids of a scope

    Every construct is created in the scope of its stack under an id; the
    ids of one scope, in the order of creation. *)

Definition registry_ids (s : EcrStack.t) : list string :=
  Ecr.id (EcrStack.ecrRepository s)
  :: Ecr.asset_id (EcrStack.dockerImageAsset s)
  :: (map Ecr.deployment_id (EcrStack.deployments s)
      ++ map Cdk.output_id (EcrStack.outputs s))%list.

Definition compute_ids (s : FargateStack.t) : list string :=
  let service := FargateStack.fargateService s in
  let behavior := Cloudfront.defaultBehavior (FargateStack.streamlitDistribution s) in
  [ Ec2.id (FargateStack.loadBalancerSecurityGroup s);
    Ec2.id (FargateStack.ecsSecurityGroup s);
    Ecs.cluster service;
    Ecs.taskRole (Ecs.taskImageOptions service);
    Elbv2.lb_id (FargateStack.loadBalancer s);
    Ecs.service_id service;
    Cloudfront.policy_id (Cloudfront.originRequestPolicy behavior);
    Cloudfront.function_id (FargateStack.corsFunction s);
    Cloudfront.distribution_id (FargateStack.streamlitDistribution s) ]
  ++ map Elbv2.rule_id (FargateStack.listenerRules s)
  ++ map Cdk.output_id (FargateStack.outputs s).

Definition nested_ids {C : Type} (d : Deployment.t C) : list string :=
  [ Cdk.construct_id (Deployment.ecrStack d);
    Cdk.construct_id (Deployment.vpcStack d);
    Cdk.construct_id (Deployment.computeStack d) ].

(** The last [k] characters of a text. *)
Definition ending (k : nat) (s : string) : string :=
  String.substring (String.length s - k) k s.

(** The number of opposite sign. *)
Definition negated (n : Js.Number) : Js.Number :=
  match n with
  | Js.NaN => Js.NaN
  | Js.Infinity neg => Js.Infinity (negb neg)
  | Js.Num neg m => Js.Num (negb neg) m
  end.

(** * Properties *)

(** ** The registry stack *)

Lemma strict_eq_str (v : Js.Val) (s : string) :
  Js.strict_eq v (Js.str s) = true <-> v = Js.str s.
Proof.
  destruct v as [|t]; simpl.
  - split; discriminate.
  - rewrite String.eqb_eq. split; [intros -> | intros [= ->]]; reflexivity.
Qed.

Lemma deployImageVersions_latest (props : StreamlitEcrStackProps) :
  imageVersion props = Js.str LATEST_IMAGE_VERSION ->
  deployImageVersions props = [Js.str LATEST_IMAGE_VERSION].
Proof.
  intros H. unfold deployImageVersions.
  rewrite (proj2 (strict_eq_str _ _) H), H. reflexivity.
Qed.

Lemma deployImageVersions_other (props : StreamlitEcrStackProps) :
  imageVersion props <> Js.str LATEST_IMAGE_VERSION ->
  deployImageVersions props = [imageVersion props; Js.str LATEST_IMAGE_VERSION].
Proof.
  intros H. unfold deployImageVersions.
  destruct (Js.strict_eq _ _) eqn:E; [|reflexivity].
  apply strict_eq_str in E. contradiction.
Qed.

(** C3.  When the image version is not [latest], the registry stack
    declares exactly two pushes, to the repository under the requested
    version and under [latest]; when it is [latest], exactly one push, to
    the repository under [latest]. *)
Theorem registry_pushes (props : StreamlitEcrStackProps) :
  let s := StreamlitEcrDeploymentCdkStack props in
  let repo := EcrStack.ecrRepository s in
  (imageVersion props <> Js.str "latest" ->
   map Ecr.dest (EcrStack.deployments s)
   = [tagged repo (Js.ToString (imageVersion props)); tagged repo "latest"])
  /\ (imageVersion props = Js.str "latest" ->
      map Ecr.dest (EcrStack.deployments s) = [tagged repo "latest"]).
Proof.
  split; intros H; simpl.
  - rewrite deployImageVersions_other by exact H. reflexivity.
  - rewrite deployImageVersions_latest by exact H. reflexivity.
Qed.

Lemma registry_pushes_witness :
  map Ecr.dest (EcrStack.deployments (StreamlitEcrDeploymentCdkStack (demo_ecr_props "1.2.0")))
  = [ [Cdk.Ref "demo-dev-arm-DockerImageEcrRepository" Cdk.RepositoryUri;
       Cdk.Lit ":"; Cdk.Lit "1.2.0"];
      [Cdk.Ref "demo-dev-arm-DockerImageEcrRepository" Cdk.RepositoryUri;
       Cdk.Lit ":"; Cdk.Lit "latest"] ]
  /\ map Ecr.dest (EcrStack.deployments (StreamlitEcrDeploymentCdkStack (demo_ecr_props "latest")))
     = [ [Cdk.Ref "demo-dev-arm-DockerImageEcrRepository" Cdk.RepositoryUri;
          Cdk.Lit ":"; Cdk.Lit "latest"] ].
Proof.
  split.
  - apply (proj1 (registry_pushes (demo_ecr_props "1.2.0"))). discriminate.
  - apply (proj2 (registry_pushes (demo_ecr_props "latest"))). reflexivity.
Defined.

(** C4.  Whatever the props, the repository is declared with exactly two
    lifecycle rules, in this order: priority 1 expires untagged images
    older than 7 days; priority 2 keeps at most 4 images of any tag
    status. *)
Theorem registry_lifecycle_rules (props : StreamlitEcrStackProps) :
  Ecr.lifecycleRules (EcrStack.ecrRepository (StreamlitEcrDeploymentCdkStack props))
  = [ {| Ecr.maxImageAge := Some (Cdk.days 7); Ecr.maxImageCount := None;
         Ecr.rulePriority := Some 1; Ecr.tagStatus := Some Ecr.UNTAGGED |};
      {| Ecr.maxImageAge := None; Ecr.maxImageCount := Some 4;
         Ecr.rulePriority := Some 2; Ecr.tagStatus := Some Ecr.ANY |} ].
Proof. reflexivity. Qed.

(** C10.  When two pushes are declared, the source of both is the image
    address of the one image asset of the stack, so both tags resolve to
    the same image whatever address the provider assigns. *)
Theorem registry_pushes_same_image (props : StreamlitEcrStackProps) :
  imageVersion props <> Js.str "latest" ->
  let s := StreamlitEcrDeploymentCdkStack props in
  exists d1 d2,
    EcrStack.deployments s = [d1; d2]
    /\ Ecr.src d1 = Ecr.imageUri (EcrStack.dockerImageAsset s)
    /\ Ecr.src d2 = Ecr.imageUri (EcrStack.dockerImageAsset s)
    /\ forall rho, Cdk.resolve rho (Ecr.src d1) = Cdk.resolve rho (Ecr.src d2).
Proof.
  intros H s. subst s. unfold StreamlitEcrDeploymentCdkStack. simpl.
  rewrite deployImageVersions_other by exact H. simpl.
  eexists _, _. split; [reflexivity|]. repeat split; reflexivity.
Qed.

Lemma registry_pushes_same_image_witness :
  exists d1 d2,
    EcrStack.deployments (StreamlitEcrDeploymentCdkStack (demo_ecr_props "1.2.0")) = [d1; d2]
    /\ Ecr.src d1 = [Cdk.Ref "demo-dev-DockerImageAsset" Cdk.ImageUri]
    /\ Ecr.src d2 = [Cdk.Ref "demo-dev-DockerImageAsset" Cdk.ImageUri]
    /\ forall rho, Cdk.resolve rho (Ecr.src d1) = Cdk.resolve rho (Ecr.src d2).
Proof.
  apply (registry_pushes_same_image (demo_ecr_props "1.2.0")). discriminate.
Defined.

(** ** The compute stack *)

(** C5.  Whatever the props, the inbound rules of the compute security
    group are exactly three: from the load balancer's security group on
    TCP port 80, from the load balancer's security group on the container
    port, and all traffic from the compute security group itself; so every
    inbound peer is one of these two groups. *)
Theorem compute_security_group_ingress (props : StreamlitEcsStackProps) :
  let s := CdkFargateFrontWithVpcDeploymentStack props in
  let balancer := Ec2.securityGroupId (Ec2.id (FargateStack.loadBalancerSecurityGroup s)) in
  let itself := Ec2.securityGroupId (Ec2.id (FargateStack.ecsSecurityGroup s)) in
  Elbv2.securityGroup (FargateStack.loadBalancer s)
  = Ec2.id (FargateStack.loadBalancerSecurityGroup s)
  /\ Ecs.securityGroups (FargateStack.fargateService s)
     = [Ec2.id (FargateStack.ecsSecurityGroup s)]
  /\ Ec2.ingress (FargateStack.ecsSecurityGroup s)
     = [ (balancer, Ec2.tcp (Js.lit 80));
         (balancer, Ec2.tcp (containerPort props));
         (itself, Ec2.allTraffic) ]
  /\ Forall (fun rule => fst rule = balancer \/ fst rule = itself)
       (Ec2.ingress (FargateStack.ecsSecurityGroup s)).
Proof.
  intros s balancer itself.
  split; [reflexivity|]. split; [reflexivity|]. split; [reflexivity|].
  subst s balancer itself. simpl.
  constructor; [left; reflexivity|].
  constructor; [left; reflexivity|].
  constructor; [right; reflexivity|].
  constructor.
Qed.

(** ** The edge function *)

Lemma handler_options (event : Cloudfront.Event) :
  method (Cloudfront.request event) = "OPTIONS" ->
  Cloudfront.handler event
  = Cloudfront.response
      {| Cloudfront.statusCode := 204;
         Cloudfront.statusDescription := "OK";
         Cloudfront.response_headers :=
           {[ "access-control-allow-origin" := "*";
              "access-control-allow-headers" := "*" ]} |}.
Proof. intros H. unfold Cloudfront.handler. rewrite H. reflexivity. Qed.

Lemma handler_other (event : Cloudfront.Event) :
  method (Cloudfront.request event) <> "OPTIONS" ->
  Cloudfront.handler event = Cloudfront.pass (Cloudfront.request event).
Proof.
  intros H. unfold Cloudfront.handler.
  destruct (String.eqb _ _) eqn:E; [|reflexivity].
  apply String.eqb_eq in E. contradiction.
Qed.

(** C6.  The distribution runs the edge function on viewer requests.  For
    a request whose method is [OPTIONS] the function returns a response
    with status 204 and the headers [access-control-allow-origin: *] and
    [access-control-allow-headers: *], and the viewer is answered at the
    edge; for any other method the function returns the request itself,
    which goes on to the origin with the same method and path. *)
Theorem cors_preflight (props : StreamlitEcsStackProps) (req : HttpRequest) :
  let s := CdkFargateFrontWithVpcDeploymentStack props in
  let d := FargateStack.streamlitDistribution s in
  let preflight :=
    {| Cloudfront.statusCode := 204;
       Cloudfront.statusDescription := "OK";
       Cloudfront.response_headers :=
         {[ "access-control-allow-origin" := "*";
            "access-control-allow-headers" := "*" ]} |} in
  Cloudfront.functionAssociations (Cloudfront.defaultBehavior d)
  = [(FargateStack.corsFunction s, Cloudfront.VIEWER_REQUEST)]
  /\ Cloudfront.code (FargateStack.corsFunction s) = Cloudfront.handler
  /\ (method req = "OPTIONS" ->
      Cloudfront.handler {| Cloudfront.request := req |} = Cloudfront.response preflight
      /\ Cloudfront.serve d req = Cloudfront.answered preflight)
  /\ (method req <> "OPTIONS" ->
      Cloudfront.handler {| Cloudfront.request := req |} = Cloudfront.pass req
      /\ exists req',
          Cloudfront.serve d req = Cloudfront.to_origin req'
          /\ method req' = method req /\ uri req' = uri req).
Proof.
  intros s d preflight. split; [reflexivity|]. split; [reflexivity|]. split.
  - intros H.
    pose proof (handler_options {| Cloudfront.request := req |} H) as E.
    split; [exact E|].
    subst d s. unfold Cloudfront.serve. simpl. rewrite E. reflexivity.
  - intros H.
    pose proof (handler_other {| Cloudfront.request := req |} H) as E.
    simpl in E. split; [exact E|].
    subst d s. unfold Cloudfront.serve. simpl. rewrite E.
    eexists. split; [reflexivity|]. split; reflexivity.
Qed.

Lemma cors_preflight_witness :
  Cloudfront.serve
    (FargateStack.streamlitDistribution (CdkFargateFrontWithVpcDeploymentStack demo_ecs_props))
    {| method := "OPTIONS"; uri := "/"; headers := [] |}
  = Cloudfront.answered
      {| Cloudfront.statusCode := 204;
         Cloudfront.statusDescription := "OK";
         Cloudfront.response_headers :=
           {[ "access-control-allow-origin" := "*";
              "access-control-allow-headers" := "*" ]} |}
  /\ Cloudfront.handler
       {| Cloudfront.request := {| method := "GET"; uri := "/"; headers := [] |} |}
     = Cloudfront.pass {| method := "GET"; uri := "/"; headers := [] |}.
Proof.
  split.
  - apply (cors_preflight demo_ecs_props {| method := "OPTIONS"; uri := "/"; headers := [] |}).
    reflexivity.
  - apply (cors_preflight demo_ecs_props {| method := "GET"; uri := "/"; headers := [] |}).
    discriminate.
Defined.

(** ** The gate at the load balancer *)

Lemma wildcard_star (s : string) : Elbv2.wildcard "*" s = true.
Proof.
  induction s as [|c s IH]; [reflexivity|].
  simpl in *. exact IH.
Qed.

Lemma carries_header (name value : string) (hs : list (string * string)) :
  existsb (Elbv2.header_is name value) hs = true <-> In (name, value) hs.
Proof.
  rewrite existsb_exists. unfold Elbv2.header_is. split.
  - intros [[n v] [Hin H]]. simpl in H.
    apply andb_true_iff in H as [Hn Hv].
    apply String.eqb_eq in Hn, Hv. subst. exact Hin.
  - intros Hin. exists (name, value). split; [exact Hin|].
    simpl. rewrite !String.eqb_refl. reflexivity.
Qed.

Lemma append_empty_r (s : string) : s +:+ "" = s.
Proof.
  induction s as [|x t IH]; [reflexivity|].
  change (String x (t +:+ "") = String x t). f_equal. exact IH.
Qed.

Lemma resolve_ref (rho : string -> Cdk.Attr -> string) (c : string) (a : Cdk.Attr) :
  Cdk.resolve rho [Cdk.Ref c a] = rho c a.
Proof. simpl. apply append_empty_r. Qed.

(** The route taken at the load balancer of the stack, by cases on the
    presence of the header that the first rule asks for. *)
Lemma at_load_balancer_cases (props : StreamlitEcsStackProps) (req : HttpRequest) :
  let s := CdkFargateFrontWithVpcDeploymentStack props in
  at_load_balancer s req
  = if existsb
         (Elbv2.header_is "X-Verify-Origin"
            (Js.ToString (appName props) +:+ "-StreamlitCloudFrontDistribution"))
         (headers req)
    then Elbv2.forward [Elbv2.targetGroupOf (Ecs.service_id (FargateStack.fargateService s))]
    else Elbv2.redirect
           {| Elbv2.host :=
                Cloudfront.distributionDomainName (FargateStack.streamlitDistribution s);
              Elbv2.permanent := true;
              Elbv2.protocol := "HTTPS";
              Elbv2.port := "443" |}.
Proof.
  unfold at_load_balancer, Elbv2.route.
  cbn -[Elbv2.wildcard Elbv2.header_is String.append].
  unfold Elbv2.better, Elbv2.matches.
  cbn -[Elbv2.wildcard Elbv2.header_is String.append].
  rewrite (wildcard_star (uri req)).
  destruct (existsb _ (headers req)); reflexivity.
Qed.

(** C1.  The stack attaches two rules to the listener: priority 1 forwards
    to the service's target group on the header [X-Verify-Origin] with the
    value [<appName>-StreamlitCloudFrontDistribution]; priority 5 matches
    every path and redirects permanently to the distribution's domain over
    HTTPS on port 443.  A request is forwarded to the target group if and
    only if it carries that header with that value, and is redirected if
    and only if it does not: there is no third outcome. *)
Theorem load_balancer_gate (props : StreamlitEcsStackProps) (req : HttpRequest) :
  let s := CdkFargateFrontWithVpcDeploymentStack props in
  let secret := Js.ToString (appName props) +:+ "-StreamlitCloudFrontDistribution" in
  let domain := Cloudfront.distributionDomainName (FargateStack.streamlitDistribution s) in
  let to_service :=
    Elbv2.forward [Elbv2.targetGroupOf (Ecs.service_id (FargateStack.fargateService s))] in
  let to_edge :=
    Elbv2.redirect
      {| Elbv2.host := domain; Elbv2.permanent := true;
         Elbv2.protocol := "HTTPS"; Elbv2.port := "443" |} in
  map (fun r => (Elbv2.priority r, Elbv2.conditions r, Elbv2.action r))
    (FargateStack.listenerRules s)
  = [ (1, [Elbv2.httpHeader "X-Verify-Origin" [secret]], to_service);
      (5, [Elbv2.pathPatterns ["*"]], to_edge) ]
  /\ (at_load_balancer s req = to_service <-> In ("X-Verify-Origin", secret) (headers req))
  /\ (at_load_balancer s req = to_edge <-> ~ In ("X-Verify-Origin", secret) (headers req))
  /\ (forall rho,
       Cdk.resolve rho domain
       = rho (Cloudfront.distribution_id (FargateStack.streamlitDistribution s))
           Cdk.DistributionDomainName).
Proof.
  intros s secret domain to_service to_edge.
  split; [reflexivity|].
  pose proof (at_load_balancer_cases props req) as E. cbv zeta in E.
  pose proof (carries_header "X-Verify-Origin" secret (headers req)) as C.
  fold s secret in E. fold domain in E. fold to_service to_edge in E.
  split; [|split].
  - rewrite E. destruct (existsb _ _).
    + split; [intros _; apply C; reflexivity | reflexivity].
    + split; [discriminate|]. intros H. apply C in H. discriminate.
  - rewrite E. destruct (existsb _ _).
    + split; [discriminate|]. intros H. exfalso. apply H, C. reflexivity.
    + split; [|reflexivity]. intros _ H. apply C in H. discriminate.
  - intros rho. apply resolve_ref.
Qed.

(** ** The header that the edge adds *)

(** C2.  The header that the distribution adds to origin requests is
    named [custom_header_name], while the first listener rule asks for
    [X-Verify-Origin]; the values agree.  So a viewer request that goes
    through the edge without a header [X-Verify-Origin] of its own reaches
    the load balancer without it, and is redirected, not forwarded. *)
Theorem edge_header_name (props : StreamlitEcsStackProps) (path : string) :
  let s := CdkFargateFrontWithVpcDeploymentStack props in
  let d := FargateStack.streamlitDistribution s in
  let secret := Js.ToString (appName props) +:+ "-StreamlitCloudFrontDistribution" in
  let viewer := {| method := "GET"; uri := path; headers := [] |} in
  Cloudfront.customHeaders (Cloudfront.origin (Cloudfront.defaultBehavior d))
  = {[ "custom_header_name" := secret ]}
  /\ map Elbv2.conditions (FargateStack.listenerRules s)
     = [ [Elbv2.httpHeader "X-Verify-Origin" [secret]]; [Elbv2.pathPatterns ["*"]] ]
  /\ Cloudfront.serve d viewer
     = Cloudfront.to_origin
         {| method := "GET"; uri := path;
            headers := [("custom_header_name", secret)] |}
  /\ through_edge s viewer
     = inr (Elbv2.redirect
              {| Elbv2.host := Cloudfront.distributionDomainName d;
                 Elbv2.permanent := true;
                 Elbv2.protocol := "HTTPS";
                 Elbv2.port := "443" |}).
Proof.
  intros s d secret viewer.
  assert (Cloudfront.serve d viewer
          = Cloudfront.to_origin
              {| method := "GET"; uri := path;
                 headers := [("custom_header_name", secret)] |}) as E.
  { unfold Cloudfront.serve, Cloudfront.origin_headers.
    cbn -[String.append map_to_list singletonM].
    rewrite map_to_list_singleton. reflexivity. }
  split; [reflexivity|]. split; [reflexivity|]. split; [exact E|].
  unfold through_edge. fold d. rewrite E.
  unfold s. rewrite at_load_balancer_cases.
  cbn -[String.append]. reflexivity.
Qed.

(** Whatever the viewer sends, short of a preflight or of the header
    [X-Verify-Origin] with the expected value, the request that the edge
    passes on is redirected by the load balancer. *)
Lemma edge_requests_are_redirected (props : StreamlitEcsStackProps)
  (viewer : HttpRequest) :
  let s := CdkFargateFrontWithVpcDeploymentStack props in
  let secret := Js.ToString (appName props) +:+ "-StreamlitCloudFrontDistribution" in
  method viewer <> "OPTIONS" ->
  ~ In ("X-Verify-Origin", secret) (headers viewer) ->
  through_edge s viewer
  = inr (Elbv2.redirect
           {| Elbv2.host :=
                Cloudfront.distributionDomainName (FargateStack.streamlitDistribution s);
              Elbv2.permanent := true;
              Elbv2.protocol := "HTTPS";
              Elbv2.port := "443" |}).
Proof.
  intros s secret Hmethod Hheader.
  pose proof (handler_other {| Cloudfront.request := viewer |} Hmethod) as E.
  assert (Cloudfront.serve (FargateStack.streamlitDistribution s) viewer
          = Cloudfront.to_origin
              {| method := method viewer; uri := uri viewer;
                 headers :=
                   Cloudfront.origin_headers
                     (Cloudfront.defaultBehavior (FargateStack.streamlitDistribution s))
                     viewer |}) as S.
  { unfold Cloudfront.serve.
    change (Cloudfront.functionAssociations
              (Cloudfront.defaultBehavior (FargateStack.streamlitDistribution s)))
      with [({| Cloudfront.function_id := app_env_platform props +:+ "-CorsFunction";
                Cloudfront.code := Cloudfront.handler |}, Cloudfront.VIEWER_REQUEST)].
    cbn [Cloudfront.viewer_request Cloudfront.code]. rewrite E. reflexivity. }
  unfold through_edge. rewrite S. unfold s at 1.
  rewrite at_load_balancer_cases.
  destruct (existsb _ _) eqn:X; [|reflexivity].
  exfalso. apply carries_header in X.
  unfold Cloudfront.origin_headers in X.
  cbn [headers s CdkFargateFrontWithVpcDeploymentStack
       FargateStack.streamlitDistribution Cloudfront.defaultBehavior
       Cloudfront.origin Cloudfront.customHeaders
       Cloudfront.originRequestPolicy Cloudfront.headerBehavior] in X.
  rewrite map_to_list_singleton in X.
  destruct X as [X|X]; [discriminate X|].
  apply filter_In in X as [X _]. exact (Hheader X).
Qed.

(** ** [parseInt] *)

Section CharacterClasses.

Local Ltac by_cases c :=
  destruct c as [[] [] [] [] [] [] [] []]; vm_compute; intros;
  solve [reflexivity | discriminate | split; reflexivity | split; discriminate].

Lemma decimal_radix_digit (c : ascii) :
  Numeral.is_decimal c = true ->
  Js.radix_digit 10 c = Some (Numeral.decimal_digit c).
Proof. by_cases c. Qed.

Lemma not_decimal_radix_digit (c : ascii) :
  Numeral.is_decimal c = false -> Js.radix_digit 10 c = None.
Proof. by_cases c. Qed.



Lemma decimal_not_space_or_sign (c : ascii) :
  Numeral.is_decimal c = true -> Numeral.is_space_or_sign c = false.
Proof. by_cases c. Qed.


End CharacterClasses.

Lemma trim_start_spaces (ws t : string) :
  Numeral.every Js.is_white_space ws = true ->
  Js.trim_start (ws +:+ t) = Js.trim_start t.
Proof.
  induction ws as [|c ws IH]; intros H; [reflexivity|].
  simpl in H. apply andb_true_iff in H as [Hc Hws].
  change (String c ws +:+ t) with (String c (ws +:+ t)).
  simpl. rewrite Hc. apply IH, Hws.
Qed.

Lemma trim_start_id (t : string) :
  Numeral.starts_with Js.is_white_space t = false -> Js.trim_start t = t.
Proof.
  destruct t as [|c t]; intros H; [reflexivity|].
  simpl in *. rewrite H. reflexivity.
Qed.

Lemma space_or_sign_false (c : ascii) :
  Numeral.is_space_or_sign c = false ->
  Js.is_white_space c = false /\ Ascii.eqb c "+" = false /\ Ascii.eqb c "-" = false.
Proof.
  unfold Numeral.is_space_or_sign. intros H.
  apply orb_false_iff in H as [H Hm]. apply orb_false_iff in H as [Hw Hp].
  auto.
Qed.

(** What is left after white space and sign have been consumed. *)
Lemma sign_split (ws : string) (sg : Numeral.Sign) (body : string) :
  Numeral.every Js.is_white_space ws = true ->
  (Numeral.signed sg = false -> Numeral.starts_with Numeral.is_space_or_sign body = false) ->
  Js.split_sign (Js.trim_start (ws +:+ Numeral.sign_text sg +:+ body))
  = (Numeral.negative sg, body).
Proof.
  intros Hws Hbody. rewrite trim_start_spaces by exact Hws.
  destruct sg; simpl Numeral.sign_text; simpl Numeral.negative.
  - specialize (Hbody eq_refl).
    change ("" +:+ body) with body.
    destruct body as [|c body]; [reflexivity|].
    simpl in Hbody. apply space_or_sign_false in Hbody as (Hw & Hp & Hm).
    simpl. rewrite Hw. simpl. rewrite Hm, Hp. reflexivity.
  - reflexivity.
  - reflexivity.
Qed.

Lemma radix_decimal (s : string) :
  Numeral.hex_marked s = false -> Js.split_radix s = (10, s).
Proof.
  unfold Numeral.hex_marked. intros H.
  destruct s as [|c [|x r]]; try reflexivity.
  cbn [Js.split_radix].
  destruct (Ascii.eqb c "0") eqn:Ec; [|reflexivity].
  apply Ascii.eqb_eq in Ec. subst c.
  destruct (Ascii.eqb x "x") eqn:Ex.
  { apply Ascii.eqb_eq in Ex. subst x. destruct r; vm_compute in H; discriminate H. }
  destruct (Ascii.eqb x "X") eqn:EX.
  { apply Ascii.eqb_eq in EX. subst x. destruct r; vm_compute in H; discriminate H. }
  reflexivity.
Qed.


Section Runs.

Variable R : N.
Variable p : ascii -> bool.
Variable digit : ascii -> N.
Hypothesis digit_in : forall c, p c = true -> Js.radix_digit R c = Some (digit c).
Hypothesis digit_out : forall c, p c = false -> Js.radix_digit R c = None.

Lemma digits_of_run (ds rest : string) :
  Numeral.every p ds = true ->
  Numeral.starts_with p rest = false ->
  Js.digits_prefix R (ds +:+ rest) = map digit (list_ascii_of_string ds).
Proof.
  intros Hds Hrest. induction ds as [|c ds IH].
  - change ("" +:+ rest) with rest. destruct rest as [|c rest]; [reflexivity|].
    simpl in *. rewrite (digit_out c Hrest). reflexivity.
  - simpl in Hds. apply andb_true_iff in Hds as [Hc Hds].
    change (String c ds +:+ rest) with (String c (ds +:+ rest)).
    simpl. rewrite (digit_in c Hc), (IH Hds). reflexivity.
Qed.

Lemma fold_positional (ds : string) (acc : N) :
  fold_left (fun a d => a * R + d) (map digit (list_ascii_of_string ds)) acc
  = acc * R ^ N.of_nat (String.length ds) + Numeral.positional R digit ds.
Proof.
  revert acc. induction ds as [|c ds IH]; intros acc.
  - simpl. lia.
  - simpl fold_left. rewrite IH.
    change (String.length (String c ds)) with (S (String.length ds)).
    rewrite Nat2N.inj_succ, N.pow_succ_r'. simpl Numeral.positional. lia.
Qed.

Lemma math_int_positional (ds : string) :
  Js.math_int R (map digit (list_ascii_of_string ds)) = Numeral.positional R digit ds.
Proof. unfold Js.math_int. rewrite fold_positional. lia. Qed.

(** The text [ds], made of digits and followed by something that is
    not a digit, is read as its positional value. *)
Lemma read_run (neg : bool) (ds rest : string) :
  Numeral.starts_with p ds = true ->
  Numeral.every p ds = true ->
  Numeral.starts_with p rest = false ->
  match Js.digits_prefix R (ds +:+ rest) with
  | [] => Js.NaN
  | digits => Js.to_number neg (Js.math_int R digits)
  end
  = Js.to_number neg (Numeral.positional R digit ds).
Proof.
  intros Hstart Hds Hrest.
  rewrite (digits_of_run ds rest Hds Hrest), <- math_int_positional.
  destruct ds as [|c ds]; [discriminate Hstart|]. reflexivity.
Qed.


End Runs.

Lemma to_number_exact (neg : bool) (m : N) :
  m < 2 ^ 53 -> Js.to_number neg m = Js.Num neg m.
Proof.
  intros H. unfold Js.to_number, Js.round_to_double.
  apply N.ltb_lt in H. rewrite H. reflexivity.
Qed.

Lemma starts_decimal_not_space_or_sign (ds rest : string) :
  Numeral.starts_with Numeral.is_decimal ds = true ->
  Numeral.starts_with Numeral.is_space_or_sign (ds +:+ rest) = false.
Proof.
  destruct ds as [|c ds]; intros H; [discriminate H|].
  simpl in *. apply decimal_not_space_or_sign, H.
Qed.


(** A decimal numeral is read as its value; what follows is dropped. *)
Lemma parseInt_decimal (ws : string) (sg : Numeral.Sign) (ds rest : string) :
  Numeral.every Js.is_white_space ws = true ->
  Numeral.starts_with Numeral.is_decimal ds = true ->
  Numeral.every Numeral.is_decimal ds = true ->
  Numeral.starts_with Numeral.is_decimal rest = false ->
  Numeral.hex_marked (ds +:+ rest) = false ->
  Js.parseInt (Js.str (ws +:+ Numeral.sign_text sg +:+ ds +:+ rest))
  = Js.to_number (Numeral.negative sg) (Numeral.positional 10 Numeral.decimal_digit ds).
Proof.
  intros Hws Hstart Hds Hrest Hhex. unfold Js.parseInt. simpl Js.ToString.
  rewrite sign_split
    by (try exact Hws; intros _; apply starts_decimal_not_space_or_sign, Hstart).
  rewrite radix_decimal by exact Hhex.
  apply (read_run 10 Numeral.is_decimal Numeral.decimal_digit
           decimal_radix_digit not_decimal_radix_digit); assumption.
Qed.




Lemma envTyped_normal (env : gmap string string) :
  envTyped env
  = normal {| ECR_REPOSITORY_NAME := process_env env "ECR_REPOSITORY_NAME";
              APP_NAME := process_env env "APP_NAME";
              IMAGE_VERSION := process_env env "IMAGE_VERSION";
              PORT := process_env env "PORT" |}.
Proof. reflexivity. Qed.

(** *** The outcome of the top-level constructors *)

Lemma registry_and_network_normal (lib : Library) (r : IEnvTypes)
  (props : StreamlitBaseStackProps)
  (stacks : Cdk.NestedStack EcrStack.t * Cdk.NestedStack Ec2.Vpc) :
  registry_and_network lib r props = normal stacks ->
  stacks = (registry_of r props, network_of r props).
Proof.
  unfold registry_and_network, created.
  destruct (registry_error lib _ _); [discriminate|].
  destruct (network_error lib _ _); [discriminate|].
  intros [= <-]. reflexivity.
Qed.

Lemma registry_and_network_throw (lib : Library) (r : IEnvTypes)
  (props : StreamlitBaseStackProps) (e : string) :
  registry_and_network lib r props = throw e ->
  registry_error lib (nested_id r props "StreamlitEcrDeploymentCdkStack")
    (ecrStackProps r props) = Some e
  \/ network_error lib (nested_id r props "StreamlitVpcDeploymentCdkStack")
       (ecrStackProps r props) = Some e.
Proof.
  unfold registry_and_network, created.
  destruct (registry_error lib _ _) as [e1|]; [intros [= <-]; left; reflexivity|].
  destruct (network_error lib _ _) as [e2|]; [intros [= <-]; right; reflexivity|].
  discriminate.
Qed.

(** A completed Fargate constructor has made the three nested stacks from
    the environment record, in turn. *)
Lemma fargate_normal (lib : Library) (env : gmap string string)
  (id : string) (props : StreamlitBaseStackProps) (d : Deployment.t FargateStack.t) :
  CdkStreamlitFargateDeploymentStack lib env id props = normal d ->
  d = {| Deployment.ecrStack := registry_of (read env) props;
         Deployment.vpcStack := network_of (read env) props;
         Deployment.computeProps := compute_props_of (read env) props;
         Deployment.computeStack :=
           nested (read env) props "CdkFargateCloudFrontWithVpcDeploymentStack"
             "App Runner"
             (CdkFargateFrontWithVpcDeploymentStack
                (compute_props_of (read env) props)) |}.
Proof.
  unfold CdkStreamlitFargateDeploymentStack, super.
  destruct (stack_error lib id props); [discriminate|].
  change (normal ?x ≫= ?f) with (f x). cbv beta.
  rewrite envTyped_normal.
  change (normal _ ≫= ?f) with (f (read env)). cbv beta.
  destruct (registry_and_network lib (read env) props) as [stacks|e] eqn:S;
    [|discriminate].
  apply registry_and_network_normal in S. subst stacks.
  change (normal ?x ≫= ?f) with (f x). cbv beta iota.
  unfold created.
  destruct (compute_error lib _ _); [discriminate|].
  intros [= <-]. reflexivity.
Qed.

(** What the Fargate constructor throws, the library has thrown. *)
Lemma fargate_throw (lib : Library) (env : gmap string string)
  (id : string) (props : StreamlitBaseStackProps) (e : string) :
  CdkStreamlitFargateDeploymentStack lib env id props = throw e ->
  thrown_by_library lib id (read env) props e.
Proof.
  unfold CdkStreamlitFargateDeploymentStack, thrown_by_library, super.
  destruct (stack_error lib id props) as [e0|];
    [intros [= <-]; left; reflexivity|].
  change (normal ?x ≫= ?f) with (f x). cbv beta.
  rewrite envTyped_normal.
  change (normal _ ≫= ?f) with (f (read env)). cbv beta.
  destruct (registry_and_network lib (read env) props) as [stacks|e'] eqn:S.
  - apply registry_and_network_normal in S. subst stacks.
    change (normal ?x ≫= ?f) with (f x). cbv beta iota.
    unfold created.
    destruct (compute_error lib _ _) as [e2|]; [|discriminate].
    intros [= <-]. right. right. right. reflexivity.
  - intros [= <-]. apply registry_and_network_throw in S. tauto.
Qed.

(** When the library throws nothing, the Fargate constructor completes,
    whatever the environment. *)
Lemma fargate_accepted (lib : Library) (env : gmap string string) (id : string)
  (props : StreamlitBaseStackProps) :
  accepted_by_library lib id (read env) props ->
  exists d, CdkStreamlitFargateDeploymentStack lib env id props = normal d.
Proof.
  intros (H0 & H1 & H2 & H3).
  destruct (CdkStreamlitFargateDeploymentStack lib env id props) as [d|e] eqn:E;
    [exists d; reflexivity|].
  apply fargate_throw in E.
  destruct E as [E|[E|[E|E]]]; congruence.
Qed.

(** With a library that rejects nothing the Fargate constructor
    completes, whatever the environment. *)
Lemma fargate_lenient (env : gmap string string) (id : string)
  (props : StreamlitBaseStackProps) :
  exists d, CdkStreamlitFargateDeploymentStack lenient env id props = normal d.
Proof. apply fargate_accepted. repeat split. Qed.

(** A completed App Runner constructor has made the registry and network
    stacks and the compute props in the same way. *)
Lemma apprunner_normal {A : Type}
  (appRunner : string -> StreamlitEcsStackProps -> Completion A)
  (lib : Library) (env : gmap string string) (id : string) (props : StreamlitBaseStackProps)
  (d : Deployment.t A) :
  CdkStreamlitEcrEcsAppRunnerDeploymentStack appRunner lib env id props = normal d ->
  Deployment.ecrStack d = registry_of (read env) props
  /\ Deployment.vpcStack d = network_of (read env) props
  /\ Deployment.computeProps d = compute_props_of (read env) props.
Proof.
  unfold CdkStreamlitEcrEcsAppRunnerDeploymentStack, super.
  destruct (stack_error lib id props); [discriminate|].
  change (normal ?x ≫= ?f) with (f x). cbv beta.
  rewrite envTyped_normal.
  change (normal _ ≫= ?f) with (f (read env)). cbv beta.
  destruct (registry_and_network lib (read env) props) as [stacks|e] eqn:S;
    [|discriminate].
  apply registry_and_network_normal in S. subst stacks.
  change (normal ?x ≫= ?f) with (f x). cbv beta iota.
  destruct (appRunner _ _); [|discriminate].
  intros [= <-]. repeat split.
Qed.





(** ** Inputs that are not set *)

(** C8, as stated, fails: with [PORT] not set, reading the environment
    completes normally; nothing is thrown at the [!]. *)
Lemma missing_input_does_not_throw :
  ~ (forall env : gmap string string,
        (exists name, In name required_inputs /\ env !! name = None) ->
        exists e, envTyped env = throw e).
Proof.
  intros H.
  destruct (H (delete "PORT" demo_env)) as [e He].
  - exists "PORT". split; [simpl; auto|]. vm_compute. reflexivity.
  - rewrite envTyped_normal in He. discriminate He.
Qed.

Lemma input_read (env : gmap string string) (name : string) :
  In name required_inputs -> input (read env) name = process_env env name.
Proof.
  intros Hin. simpl in Hin.
  destruct Hin as [<-|[<-|[<-|[<-|[]]]]]; reflexivity.
Qed.

(** C8, amended.  When a required input is not set, reading the
    environment does not fail at the [!]: it completes, with that field
    [undefined] and every input that is set read as it is, and the props
    of the nested stacks are built from the record as it is (the port is
    [parseInt] of the [PORT] field).  The constructor completes when the
    library throws nothing, it throws only what the library throws for the
    stack or a nested stack, and a completed constructor has given the
    compute stack those props. *)
Theorem missing_input_proceeds (lib : Library) (env : gmap string string)
  (id : string) (props : StreamlitBaseStackProps) (name : string) :
  In name required_inputs ->
  env !! name = None ->
  exists r,
    envTyped env = normal r
    /\ input r name = Js.undefined
    /\ (forall other text,
          In other required_inputs -> env !! other = Some text ->
          input r other = Js.str text)
    /\ appName (ecrStackProps r props) = APP_NAME r
    /\ repositoryName (ecrStackProps r props) = ECR_REPOSITORY_NAME r
    /\ imageVersion (ecrStackProps r props) = IMAGE_VERSION r
    /\ (forall ecrStack vpcStack,
          containerPort (ecsStackProps r props ecrStack vpcStack) = Js.parseInt (PORT r))
    /\ (accepted_by_library lib id r props ->
        exists d, CdkStreamlitFargateDeploymentStack lib env id props = normal d)
    /\ (forall e,
          CdkStreamlitFargateDeploymentStack lib env id props = throw e ->
          thrown_by_library lib id r props e)
    /\ (forall d,
          CdkStreamlitFargateDeploymentStack lib env id props = normal d ->
          Deployment.computeProps d = compute_props_of r props)
    /\ (forall (A : Type) (appRunner : string -> StreamlitEcsStackProps -> Completion A) d,
          CdkStreamlitEcrEcsAppRunnerDeploymentStack appRunner lib env id props = normal d ->
          Deployment.computeProps d = compute_props_of r props).
Proof.
  intros Hin Hnone. exists (read env).
  split; [apply envTyped_normal|]. split.
  { rewrite input_read by exact Hin. unfold process_env. rewrite Hnone. reflexivity. }
  split.
  { intros other text Hother Hset. rewrite input_read by exact Hother.
    unfold process_env. rewrite Hset. reflexivity. }
  repeat (split; [reflexivity|]).
  split; [apply fargate_accepted|].
  split; [intros e He; apply fargate_throw, He|].
  split.
  - intros d Hd. apply fargate_normal in Hd. subst d. reflexivity.
  - intros A appRunner d Hd. apply apprunner_normal in Hd as (_ & _ & ->). reflexivity.
Qed.

Lemma missing_input_proceeds_witness :
  exists r,
    envTyped (delete "PORT" demo_env) = normal r
    /\ PORT r = Js.undefined
    /\ APP_NAME r = Js.str "demo"
    /\ (forall ecrStack vpcStack,
          containerPort (ecsStackProps r demo_props ecrStack vpcStack) = Js.NaN)
    /\ exists d,
        CdkStreamlitFargateDeploymentStack lenient (delete "PORT" demo_env)
          demo_id demo_props = normal d.
Proof.
  destruct (missing_input_proceeds lenient (delete "PORT" demo_env) demo_id demo_props "PORT")
    as (r & Hr & Hu & Hset & _ & _ & _ & Hport & Hdone & _).
  - simpl. auto.
  - vm_compute. reflexivity.
  - exists r. split; [exact Hr|]. split; [exact Hu|]. split; [|split].
    + apply (Hset "APP_NAME" "demo"); [simpl; auto | vm_compute; reflexivity].
    + intros ecrStack vpcStack. rewrite Hport.
      change (PORT r) with (input r "PORT"). rewrite Hu. reflexivity.
    + apply Hdone. repeat split.
Defined.

(** ** The sample scenario *)

Lemma platform_flag (props : StreamlitEcsStackProps) :
  Ecs.cpuArchitecture
    (Ecs.runtimePlatform
       (FargateStack.fargateService (CdkFargateFrontWithVpcDeploymentStack props)))
  = Ecs.ARM64
  <-> platformString props = "arm".
Proof.
  simpl. destruct (String.eqb_spec (platformString props) "arm") as [E|E].
  - split; [intros _; exact E | reflexivity].
  - split; [discriminate | contradiction].
Qed.



(** ** Sample evaluations *)

Example parseInt_port : Js.parseInt (Js.str "8501") = Js.lit 8501.
Proof. reflexivity. Qed.

Example parseInt_signed : Js.parseInt (Js.str "  -80px") = Js.Num true 80.
Proof. reflexivity. Qed.

Example parseInt_negative_zero : Js.parseInt (Js.str "-0") = Js.Num true 0.
Proof. reflexivity. Qed.

Example parseInt_undefined : Js.parseInt Js.undefined = Js.NaN.
Proof. reflexivity. Qed.

Example parseInt_rounds :
  Js.parseInt (Js.str "9007199254740993") = Js.lit 9007199254740992
  /\ Js.parseInt (Js.str "9007199254740995") = Js.lit 9007199254740996.
Proof. split; vm_compute; reflexivity. Qed.

Example wildcard_samples :
  Elbv2.wildcard "/img/*" "/img/a.png" = true
  /\ Elbv2.wildcard "/v?/*" "/v1/x" = true
  /\ Elbv2.wildcard "/img/*" "/css/a" = false.
Proof. repeat split. Qed.

Example demo_route_direct :
  at_load_balancer (CdkFargateFrontWithVpcDeploymentStack demo_ecs_props)
    {| method := "GET"; uri := "/"; headers := [("Host", "lb.example")] |}
  = Elbv2.redirect
      {| Elbv2.host := [Cdk.Ref "demo-dev-arm-StreamlitDistribution" Cdk.DistributionDomainName];
         Elbv2.permanent := true; Elbv2.protocol := "HTTPS"; Elbv2.port := "443" |}.
Proof. vm_compute. reflexivity. Qed.

Example demo_route_with_header :
  at_load_balancer (CdkFargateFrontWithVpcDeploymentStack demo_ecs_props)
    {| method := "GET"; uri := "/";
       headers := [("X-Verify-Origin", "demo-StreamlitCloudFrontDistribution")] |}
  = Elbv2.forward [Elbv2.targetGroupOf "demo-dev-arm-FargateService"].
Proof. vm_compute. reflexivity. Qed.


(** A repository name of one character: the registry stack is rejected,
    with [PORT] set or not. *)
Example short_name_is_rejected :
  CdkStreamlitFargateDeploymentStack short_names_rejected
    (<["ECR_REPOSITORY_NAME" := "a"]> (delete "PORT" demo_env)) demo_id demo_props
  = throw "Repository name must be at least 2 and no more than 256 characters".
Proof. vm_compute. reflexivity. Qed.

Example missing_port_completes :
  exists d,
    CdkStreamlitFargateDeploymentStack short_names_rejected
      (delete "PORT" demo_env) demo_id demo_props = normal d
    /\ containerPort (Deployment.computeProps d) = Js.NaN.
Proof. eexists. split; vm_compute; reflexivity. Qed.


(** * Further properties *)

(** ** Texts *)

Lemma append_assoc (a b c : string) : (a +:+ b) +:+ c = a +:+ (b +:+ c).
Proof.
  induction a as [|x a IH]; [reflexivity|].
  change (String x ((a +:+ b) +:+ c) = String x (a +:+ (b +:+ c))).
  f_equal. exact IH.
Qed.

Lemma length_append (a b : string) :
  String.length (a +:+ b) = (String.length a + String.length b)%nat.
Proof.
  induction a as [|x a IH]; [reflexivity|].
  change (S (String.length (a +:+ b)) = S (String.length a + String.length b)).
  f_equal. exact IH.
Qed.

Lemma append_inv_head (a b c : string) : a +:+ b = a +:+ c -> b = c.
Proof.
  induction a as [|x a IH]; intros H; [exact H|].
  apply IH. injection H as H. exact H.
Qed.

Lemma append_inv_tail (a b c : string) : a +:+ c = b +:+ c -> a = b.
Proof.
  revert b. induction a as [|x a IH]; intros [|y b] H.
  - reflexivity.
  - exfalso. apply (f_equal String.length) in H.
    rewrite !length_append in H. cbn [String.length] in H. lia.
  - exfalso. apply (f_equal String.length) in H.
    rewrite !length_append in H. cbn [String.length] in H. lia.
  - injection H as -> H. f_equal. apply IH, H.
Qed.

Lemma ending_append (k : nat) (x s : string) :
  (k <= String.length s)%nat -> ending k (x +:+ s) = ending k s.
Proof.
  intros Hk. induction x as [|c x IH]; [reflexivity|].
  rewrite <- IH. unfold ending.
  change (String c x +:+ s) with (String c (x +:+ s)).
  cbn [String.length].
  assert (String.length (x +:+ s) >= k)%nat as Hlen
    by (rewrite length_append; lia).
  replace (S (String.length (x +:+ s)) - k)%nat
    with (S (String.length (x +:+ s) - k)) by lia.
  reflexivity.
Qed.

(** Two ids are told apart by what follows a common start, or by their
    last characters. *)
Ltac tell_apart E :=
  first
    [ apply append_inv_head in E; discriminate E
    | apply (f_equal (ending 2)) in E;
      rewrite ?ending_append in E
        by (rewrite ?length_append; cbn [String.length]; lia);
      vm_compute in E; discriminate E
    | apply (f_equal (ending 4)) in E;
      rewrite ?ending_append in E
        by (rewrite ?length_append; cbn [String.length]; lia);
      vm_compute in E; discriminate E ].

Ltac none_equal :=
  let H := fresh "H" in
  cbn [In]; intros H;
  repeat (destruct H as [H|H]; [tell_apart H|]);
  exact H.

(** ** Construct ids never collide *)

Lemma deployment_ids_differ (props : StreamlitEcrStackProps) :
  imageVersion props <> Js.str LATEST_IMAGE_VERSION ->
  app_env props +:+ "-" +:+ Js.ToString (imageVersion props) +:+ "-ECRDeployment"
  <> app_env props +:+ "-" +:+ LATEST_IMAGE_VERSION +:+ "-ECRDeployment".
Proof.
  intros Hv E.
  apply append_inv_head in E. apply (append_inv_head "-") in E.
  apply append_inv_tail in E.
  destruct (imageVersion props) as [|v]; [discriminate E|].
  simpl in E. subst v. apply Hv. reflexivity.
Qed.

(** X1.  Whatever the props, the constructs that the registry stack
    creates in its scope (the repository, the image asset, one deployment
    per pushed tag, the two outputs) have pairwise different ids. *)
Theorem registry_ids_distinct (props : StreamlitEcrStackProps) :
  List.NoDup (registry_ids (StreamlitEcrDeploymentCdkStack props)).
Proof.
  unfold registry_ids, StreamlitEcrDeploymentCdkStack.
  cbn [EcrStack.ecrRepository EcrStack.dockerImageAsset EcrStack.deployments
       EcrStack.outputs Ecr.id Ecr.asset_id Ecr.addLifecycleRule].
  unfold deployImageVersions.
  destruct (Js.strict_eq (imageVersion props) (Js.str LATEST_IMAGE_VERSION)) eqn:Hv.
  - cbn [map app Ecr.deployment_id Cdk.output_id].
    unfold app_env_platform.
    repeat (constructor; [none_equal|]). constructor.
  - assert (imageVersion props <> Js.str LATEST_IMAGE_VERSION) as Hne.
    { intros Heq. apply strict_eq_str in Heq. congruence. }
    pose proof (deployment_ids_differ props Hne) as Hd.
    cbn [map app Ecr.deployment_id Cdk.output_id Js.ToString].
    unfold app_env_platform.
    constructor; [none_equal|].
    constructor; [none_equal|].
    constructor.
    { cbn [In]. intros [H|H]; [exact (Hd (eq_sym H))|]. revert H. none_equal. }
    repeat (constructor; [none_equal|]). constructor.
Qed.

(** X2.  Whatever the props, the constructs that the gated compute stack
    creates in its scope (two security groups, cluster, task role, load
    balancer, service, origin request policy, edge function, distribution,
    two listener rules, one output) have pairwise different ids. *)
Theorem compute_ids_distinct (props : StreamlitEcsStackProps) :
  List.NoDup (compute_ids (CdkFargateFrontWithVpcDeploymentStack props)).
Proof.
  unfold compute_ids.
  cbn [CdkFargateFrontWithVpcDeploymentStack
       FargateStack.loadBalancerSecurityGroup FargateStack.ecsSecurityGroup
       FargateStack.loadBalancer FargateStack.fargateService
       FargateStack.corsFunction FargateStack.streamlitDistribution
       FargateStack.listenerRules FargateStack.outputs
       Ec2.id Ec2.new Ec2.addIngressRule Ecs.cluster Ecs.taskRole
       Ecs.taskImageOptions Ecs.service_id Elbv2.lb_id
       Cloudfront.defaultBehavior Cloudfront.originRequestPolicy
       Cloudfront.policy_id Cloudfront.function_id Cloudfront.distribution_id
       Elbv2.rule_id Cdk.output_id map app].
  repeat (constructor; [none_equal|]). constructor.
Qed.

Lemma nested_id_inj (r : IEnvTypes) (props : StreamlitBaseStackProps) (n1 n2 : string) :
  nested_id r props n1 = nested_id r props n2 -> n1 = n2.
Proof.
  unfold nested_id. intros E.
  repeat apply append_inv_head in E. exact E.
Qed.

Lemma nested_names_distinct (r : IEnvTypes) (props : StreamlitBaseStackProps)
  (compute : string) :
  compute <> "StreamlitEcrDeploymentCdkStack" ->
  compute <> "StreamlitVpcDeploymentCdkStack" ->
  List.NoDup [ nested_id r props "StreamlitEcrDeploymentCdkStack";
               nested_id r props "StreamlitVpcDeploymentCdkStack";
               nested_id r props compute ].
Proof.
  intros H1 H2.
  constructor.
  { cbn [In]. intros [H|[H|[]]]; apply nested_id_inj in H.
    - discriminate H.
    - apply H1. first [exact H | symmetry; exact H]. }
  constructor.
  { cbn [In]. intros [H|[]]. apply nested_id_inj in H.
    apply H2. first [exact H | symmetry; exact H]. }
  constructor; [intros []|constructor].
Qed.

Lemma apprunner_compute_id {A : Type}
  (appRunner : string -> StreamlitEcsStackProps -> Completion A)
  (lib : Library) (env : gmap string string) (id : string) (props : StreamlitBaseStackProps)
  (d : Deployment.t A) :
  CdkStreamlitEcrEcsAppRunnerDeploymentStack appRunner lib env id props = normal d ->
  Cdk.construct_id (Deployment.computeStack d)
  = nested_id (read env) props "CdkAppRunnerWithVpcDeploymentStack".
Proof.
  unfold CdkStreamlitEcrEcsAppRunnerDeploymentStack, super.
  destruct (stack_error lib id props); [discriminate|].
  change (normal ?x ≫= ?f) with (f x). cbv beta.
  rewrite envTyped_normal.
  change (normal _ ≫= ?f) with (f (read env)). cbv beta.
  destruct (registry_and_network lib (read env) props) as [stacks|e] eqn:S;
    [|discriminate].
  apply registry_and_network_normal in S. subst stacks.
  change (normal ?x ≫= ?f) with (f x). cbv beta iota.
  destruct (appRunner _ _); [|discriminate].
  intros [= <-]. reflexivity.
Qed.

(** X3.  When a top-level constructor completes, the three nested stacks
    it has made have pairwise different ids, whatever the environment and
    the props. *)
Theorem nested_ids_distinct :
  (forall (lib : Library) (env : gmap string string) (id : string) (props : StreamlitBaseStackProps)
          (d : Deployment.t FargateStack.t),
      CdkStreamlitFargateDeploymentStack lib env id props = normal d ->
      List.NoDup (nested_ids d))
  /\ (forall (A : Type) (appRunner : string -> StreamlitEcsStackProps -> Completion A)
             (lib : Library) (env : gmap string string) (id : string)
             (props : StreamlitBaseStackProps) (d : Deployment.t A),
        CdkStreamlitEcrEcsAppRunnerDeploymentStack appRunner lib env id props = normal d ->
        List.NoDup (nested_ids d)).
Proof.
  split.
  - intros lib env id props d Hd. apply fargate_normal in Hd. subst d.
    apply nested_names_distinct; discriminate.
  - intros A appRunner lib env id props d Hd.
    pose proof (apprunner_compute_id _ _ _ _ _ _ Hd) as Hc.
    apply apprunner_normal in Hd as (He & Hv & _).
    unfold nested_ids. rewrite He, Hv, Hc.
    apply nested_names_distinct; discriminate.
Qed.

Lemma nested_ids_distinct_witness :
  exists d,
    CdkStreamlitFargateDeploymentStack lenient demo_env demo_id demo_props = normal d
    /\ nested_ids d
       = [ "demo-dev-eu-west-1-StreamlitEcrDeploymentCdkStack";
           "demo-dev-eu-west-1-StreamlitVpcDeploymentCdkStack";
           "demo-dev-eu-west-1-CdkFargateCloudFrontWithVpcDeploymentStack" ]
    /\ List.NoDup (nested_ids d).
Proof.
  eexists. split; [reflexivity|]. split; [vm_compute; reflexivity|].
  apply (proj1 nested_ids_distinct lenient demo_env demo_id demo_props). reflexivity.
Defined.

(** ** What the stacks of one deployment agree on *)

(** X4.  In every completed Fargate deployment the image is built for
    the architecture that the service runs on: the asset's platform is
    LINUX_ARM64 exactly when the service's CPU architecture is ARM64, and
    LINUX_AMD64 exactly when it is X86_64. *)
Theorem image_matches_runtime (lib : Library) (env : gmap string string)
  (id : string) (props : StreamlitBaseStackProps) (d : Deployment.t FargateStack.t) :
  CdkStreamlitFargateDeploymentStack lib env id props = normal d ->
  let asset := EcrStack.dockerImageAsset (Cdk.body (Deployment.ecrStack d)) in
  let runtime :=
    Ecs.runtimePlatform
      (FargateStack.fargateService (Cdk.body (Deployment.computeStack d))) in
  (Ecr.platform asset = Ecr.LINUX_ARM64 <-> Ecs.cpuArchitecture runtime = Ecs.ARM64)
  /\ (Ecr.platform asset = Ecr.LINUX_AMD64 <-> Ecs.cpuArchitecture runtime = Ecs.X86_64).
Proof.
  intros Hd. apply fargate_normal in Hd. subst d.
  cbn [Deployment.ecrStack Deployment.computeStack registry_of compute_props_of nested
       Cdk.body StreamlitEcrDeploymentCdkStack CdkFargateFrontWithVpcDeploymentStack
       EcrStack.dockerImageAsset FargateStack.fargateService Ecs.runtimePlatform
       Ecr.platform Ecs.cpuArchitecture ecsStackProps ecrStackProps ecs_base ecr_base
       platformString].
  destruct (String.eqb (platformString props) "arm");
    split; split; intros H; first [reflexivity | discriminate H].
Qed.

Lemma image_matches_runtime_witness :
  exists d,
    CdkStreamlitFargateDeploymentStack lenient demo_env demo_id demo_props = normal d
    /\ Ecr.platform (EcrStack.dockerImageAsset (Cdk.body (Deployment.ecrStack d)))
       = Ecr.LINUX_ARM64
    /\ Ecs.cpuArchitecture
         (Ecs.runtimePlatform
            (FargateStack.fargateService (Cdk.body (Deployment.computeStack d))))
       = Ecs.ARM64.
Proof.
  eexists. split; [reflexivity|].
  assert (Ecr.platform
            (EcrStack.dockerImageAsset
               (Cdk.body (registry_of (read demo_env) demo_props)))
          = Ecr.LINUX_ARM64) as Ha by reflexivity.
  split; [exact Ha|].
  apply (proj1 (proj1 (image_matches_runtime lenient demo_env demo_id demo_props _ eq_refl))).
  exact Ha.
Defined.

(** X5.  When [IMAGE_VERSION] is set, a completed Fargate deployment has
    given the service the repository that the registry stack declares and
    the tag of that version, and the registry stack pushes to that tag of
    that repository. *)
Theorem service_image_is_pushed (lib : Library) (env : gmap string string)
  (id : string) (props : StreamlitBaseStackProps) (version : string)
  (d : Deployment.t FargateStack.t) :
  env !! "IMAGE_VERSION" = Some version ->
  CdkStreamlitFargateDeploymentStack lib env id props = normal d ->
  let registry := Cdk.body (Deployment.ecrStack d) in
  let image :=
    Ecs.image
      (Ecs.taskImageOptions
         (FargateStack.fargateService (Cdk.body (Deployment.computeStack d)))) in
  Ecs.repository image = EcrStack.ecrRepository registry
  /\ Ecs.tag image = Js.str version
  /\ In (tagged (Ecs.repository image) version)
       (map Ecr.dest (EcrStack.deployments registry)).
Proof.
  intros Hversion Hd.
  assert (process_env env "IMAGE_VERSION" = Js.str version) as Hv
    by (unfold process_env; rewrite Hversion; reflexivity).
  apply fargate_normal in Hd. subst d.
  cbn [Deployment.ecrStack Deployment.computeStack registry_of nested Cdk.body].
  split; [reflexivity|]. split; [exact Hv|].
  cbn [StreamlitEcrDeploymentCdkStack EcrStack.deployments].
  unfold deployImageVersions.
  cbn [ecrStackProps imageVersion IMAGE_VERSION read]. rewrite Hv.
  destruct (Js.strict_eq _ _); left; reflexivity.
Qed.

Lemma service_image_is_pushed_witness :
  exists d,
    CdkStreamlitFargateDeploymentStack lenient demo_env demo_id demo_props = normal d
    /\ Ecs.tag
         (Ecs.image
            (Ecs.taskImageOptions
               (FargateStack.fargateService (Cdk.body (Deployment.computeStack d)))))
       = Js.str "1.2.0".
Proof.
  destruct (fargate_lenient demo_env demo_id demo_props) as [d Hd].
  exists d. split; [exact Hd|].
  apply (service_image_is_pushed lenient demo_env demo_id demo_props "1.2.0" d);
    [vm_compute; reflexivity | exact Hd].
Defined.

(** X6.  When [IMAGE_VERSION] is not set, the registry stack of a
    completed Fargate deployment still declares two pushes: to the tag
    [undefined], the text of the missing value, and to [latest]. *)
Theorem missing_version_pushes (lib : Library) (env : gmap string string)
  (id : string) (props : StreamlitBaseStackProps) (d : Deployment.t FargateStack.t) :
  env !! "IMAGE_VERSION" = None ->
  CdkStreamlitFargateDeploymentStack lib env id props = normal d ->
  let registry := Cdk.body (Deployment.ecrStack d) in
  map Ecr.dest (EcrStack.deployments registry)
  = [ tagged (EcrStack.ecrRepository registry) "undefined";
      tagged (EcrStack.ecrRepository registry) "latest" ].
Proof.
  intros Hversion Hd.
  assert (process_env env "IMAGE_VERSION" = Js.undefined) as Hv
    by (unfold process_env; rewrite Hversion; reflexivity).
  apply fargate_normal in Hd. subst d.
  cbn [Deployment.ecrStack registry_of nested Cdk.body
       StreamlitEcrDeploymentCdkStack EcrStack.deployments EcrStack.ecrRepository].
  unfold deployImageVersions.
  cbn [ecrStackProps imageVersion IMAGE_VERSION read]. rewrite Hv. reflexivity.
Qed.

Lemma missing_version_pushes_witness :
  exists d,
    CdkStreamlitFargateDeploymentStack lenient (delete "IMAGE_VERSION" demo_env) demo_id demo_props
    = normal d
    /\ map Ecr.dest (EcrStack.deployments (Cdk.body (Deployment.ecrStack d)))
       = [ tagged (EcrStack.ecrRepository (Cdk.body (Deployment.ecrStack d))) "undefined";
           tagged (EcrStack.ecrRepository (Cdk.body (Deployment.ecrStack d))) "latest" ].
Proof.
  destruct (fargate_lenient (delete "IMAGE_VERSION" demo_env) demo_id demo_props) as [d Hd].
  exists d. split; [exact Hd|].
  apply (missing_version_pushes lenient (delete "IMAGE_VERSION" demo_env) demo_id demo_props d);
    [vm_compute; reflexivity | exact Hd].
Defined.

(** ** An application name that is not set *)

Lemma process_env_insert_other (env : gmap string string) (k name v : string) :
  k <> name -> process_env (<[k := v]> env) name = process_env env name.
Proof. intros H. unfold process_env. rewrite lookup_insert_ne by exact H. reflexivity. Qed.

Lemma process_env_insert (env : gmap string string) (k v : string) :
  process_env (<[k := v]> env) k = Js.str v.
Proof. unfold process_env. rewrite lookup_insert_eq. reflexivity. Qed.

(** X7.  When [APP_NAME] is not set, a completed Fargate deployment
    declares what a completed one declares for [APP_NAME=undefined]: the
    same registry stack, the same ids of the three nested stacks, and in
    the compute stack the same viewer function, header value,
    distribution, listener rules and outputs; the props differ, the name
    is [undefined] in one and the text [undefined] in the other. *)
Theorem missing_app_name_reads_undefined (lib lib' : Library)
  (env : gmap string string) (id id' : string) (props : StreamlitBaseStackProps)
  (d d' : Deployment.t FargateStack.t) :
  env !! "APP_NAME" = None ->
  CdkStreamlitFargateDeploymentStack lib env id props = normal d ->
  CdkStreamlitFargateDeploymentStack lib' (<["APP_NAME" := "undefined"]> env) id' props
  = normal d' ->
  let compute := Cdk.body (Deployment.computeStack d) in
  let compute' := Cdk.body (Deployment.computeStack d') in
  Deployment.ecrStack d = Deployment.ecrStack d'
  /\ nested_ids d = nested_ids d'
  /\ FargateStack.corsFunction compute = FargateStack.corsFunction compute'
  /\ FargateStack.customHeaderValue compute = FargateStack.customHeaderValue compute'
  /\ FargateStack.streamlitDistribution compute
     = FargateStack.streamlitDistribution compute'
  /\ FargateStack.listenerRules compute = FargateStack.listenerRules compute'
  /\ FargateStack.outputs compute = FargateStack.outputs compute'
  /\ appName (Deployment.computeProps d) = Js.undefined
  /\ appName (Deployment.computeProps d') = Js.str "undefined".
Proof.
  intros Happ Hd Hd'.
  assert (process_env env "APP_NAME" = Js.undefined) as Ha
    by (unfold process_env; rewrite Happ; reflexivity).
  apply fargate_normal in Hd, Hd'. subst d d'.
  unfold read.
  rewrite process_env_insert.
  rewrite !process_env_insert_other by discriminate.
  rewrite Ha.
  repeat split.
Qed.

Lemma missing_app_name_reads_undefined_witness :
  exists d d',
    CdkStreamlitFargateDeploymentStack lenient (delete "APP_NAME" demo_env) demo_id demo_props
    = normal d
    /\ CdkStreamlitFargateDeploymentStack lenient
         (<["APP_NAME" := "undefined"]> (delete "APP_NAME" demo_env)) demo_id demo_props
       = normal d'
    /\ Deployment.ecrStack d = Deployment.ecrStack d'
    /\ nested_ids d = nested_ids d'.
Proof.
  destruct (fargate_lenient (delete "APP_NAME" demo_env) demo_id demo_props) as [d Hd].
  destruct (fargate_lenient (<["APP_NAME" := "undefined"]> (delete "APP_NAME" demo_env))
              demo_id demo_props) as [d' Hd'].
  exists d, d'. split; [exact Hd|]. split; [exact Hd'|].
  destruct (missing_app_name_reads_undefined lenient lenient
              (delete "APP_NAME" demo_env) demo_id demo_id demo_props d d') as (H1 & H2 & _).
  - vm_compute. reflexivity.
  - exact Hd.
  - exact Hd'.
  - split; [exact H1 | exact H2].
Defined.

(** ** More on the gate *)

(** X8.  At the load balancer of the gated stack the outcome depends on
    the set of headers only: two requests with the same headers, in any
    order and multiplicity, are routed alike whatever their methods and
    paths. *)
Theorem gate_reads_headers_only (props : StreamlitEcsStackProps) (r1 r2 : HttpRequest) :
  (forall h, In h (headers r1) <-> In h (headers r2)) ->
  at_load_balancer (CdkFargateFrontWithVpcDeploymentStack props) r1
  = at_load_balancer (CdkFargateFrontWithVpcDeploymentStack props) r2.
Proof.
  intros Hsame.
  pose proof (at_load_balancer_cases props r1) as E1.
  pose proof (at_load_balancer_cases props r2) as E2.
  cbv zeta in E1, E2. rewrite E1, E2.
  set (secret := Js.ToString (appName props) +:+ "-StreamlitCloudFrontDistribution").
  pose proof (carries_header "X-Verify-Origin" secret (headers r1)) as C1.
  pose proof (carries_header "X-Verify-Origin" secret (headers r2)) as C2.
  destruct (existsb _ (headers r1)) eqn:X1, (existsb _ (headers r2)) eqn:X2;
    try reflexivity; exfalso.
  - assert (In ("X-Verify-Origin", secret) (headers r2)) as H
      by (apply Hsame, C1; reflexivity).
    apply C2 in H. discriminate H.
  - assert (In ("X-Verify-Origin", secret) (headers r1)) as H
      by (apply Hsame, C2; reflexivity).
    apply C1 in H. discriminate H.
Qed.

Lemma gate_reads_headers_only_witness :
  at_load_balancer (CdkFargateFrontWithVpcDeploymentStack demo_ecs_props)
    {| method := "GET"; uri := "/";
       headers := [("Accept", "*/*"); ("Host", "lb")] |}
  = at_load_balancer (CdkFargateFrontWithVpcDeploymentStack demo_ecs_props)
      {| method := "POST"; uri := "/_stcore/stream";
         headers := [("Host", "lb"); ("Accept", "*/*"); ("Host", "lb")] |}.
Proof.
  apply gate_reads_headers_only. intros h. cbn [headers In]. tauto.
Defined.

(** X9.  The value that opens the gate is made of the application name
    alone: two gated stacks of the same application name, whatever their
    environments, regions, platforms and ports, forward the same
    requests. *)
Theorem gate_shared_across_stacks (p1 p2 : StreamlitEcsStackProps) (req : HttpRequest) :
  Js.ToString (appName p1) = Js.ToString (appName p2) ->
  (exists groups,
      at_load_balancer (CdkFargateFrontWithVpcDeploymentStack p1) req
      = Elbv2.forward groups)
  <-> (exists groups,
          at_load_balancer (CdkFargateFrontWithVpcDeploymentStack p2) req
          = Elbv2.forward groups).
Proof.
  intros Hname.
  pose proof (at_load_balancer_cases p1 req) as E1.
  pose proof (at_load_balancer_cases p2 req) as E2.
  cbv zeta in E1, E2. rewrite E1, E2, Hname.
  generalize
    (existsb
       (Elbv2.header_is "X-Verify-Origin"
          (Js.ToString (appName p2) +:+ "-StreamlitCloudFrontDistribution"))
       (headers req)).
  intros [|].
  - split; intros _; eexists; reflexivity.
  - split; intros [groups H]; discriminate H.
Qed.

Lemma gate_shared_across_stacks_witness :
  exists groups,
    at_load_balancer
      (CdkFargateFrontWithVpcDeploymentStack
         {| ecs_base :=
              {| ecr_base :=
                   {| appName := Js.str "demo"; environment := "prod";
                      deployRegion := "us-east-1"; platformString := "amd64" |};
                 repositoryName := Js.str "other"; imageVersion := Js.str "2.0" |};
            containerPort := Js.lit 80;
            ecrRepository := ecrRepository demo_ecs_props;
            vpc := vpc demo_ecs_props |})
      {| method := "GET"; uri := "/";
         headers := [("X-Verify-Origin", "demo-StreamlitCloudFrontDistribution")] |}
    = Elbv2.forward groups.
Proof.
  apply (gate_shared_across_stacks demo_ecs_props); [reflexivity|].
  eexists. vm_compute. reflexivity.
Defined.

(** X10.  Two gated stacks whose application names read differently do
    not open to each other's value: a request whose only header is the
    one that the first stack asks for is forwarded by the first and
    redirected by the second. *)
Theorem gate_closed_to_other_names (p1 p2 : StreamlitEcsStackProps) (m u : string) :
  Js.ToString (appName p1) <> Js.ToString (appName p2) ->
  let req :=
    {| method := m; uri := u;
       headers :=
         [("X-Verify-Origin",
           Js.ToString (appName p1) +:+ "-StreamlitCloudFrontDistribution")] |} in
  (exists groups,
      at_load_balancer (CdkFargateFrontWithVpcDeploymentStack p1) req
      = Elbv2.forward groups)
  /\ (exists options,
         at_load_balancer (CdkFargateFrontWithVpcDeploymentStack p2) req
         = Elbv2.redirect options).
Proof.
  intros Hname req.
  pose proof (at_load_balancer_cases p1 req) as E1.
  pose proof (at_load_balancer_cases p2 req) as E2.
  cbv zeta in E1, E2. rewrite E1, E2. clear E1 E2.
  split.
  - replace (existsb _ (headers req)) with true; [eexists; reflexivity|].
    symmetry. apply carries_header. left. reflexivity.
  - destruct (existsb _ (headers req)) eqn:X; [|eexists; reflexivity].
    exfalso. apply carries_header in X. destruct X as [X|[]].
    injection X as X. apply append_inv_tail in X. exact (Hname X).
Qed.

Lemma gate_closed_to_other_names_witness :
  exists options,
    at_load_balancer
      (CdkFargateFrontWithVpcDeploymentStack
         {| ecs_base :=
              {| ecr_base :=
                   {| appName := Js.str "other"; environment := "dev";
                      deployRegion := "eu-west-1"; platformString := "arm" |};
                 repositoryName := Js.str "other"; imageVersion := Js.str "1.2.0" |};
            containerPort := Js.lit 8501;
            ecrRepository := ecrRepository demo_ecs_props;
            vpc := vpc demo_ecs_props |})
      {| method := "GET"; uri := "/";
         headers := [("X-Verify-Origin", "demo-StreamlitCloudFrontDistribution")] |}
    = Elbv2.redirect options.
Proof.
  refine (proj2 (gate_closed_to_other_names demo_ecs_props _ "GET" "/" _)).
  discriminate.
Defined.

(** X11.  Through the edge of the gated stack, a request that is not a
    preflight reaches the service exactly when the viewer itself sends
    [X-Verify-Origin] with the expected value: the header that the edge
    adds does not open the gate, and the viewer's headers are passed on. *)
Theorem edge_path_needs_viewer_header (props : StreamlitEcsStackProps)
  (viewer : HttpRequest) :
  method viewer <> "OPTIONS" ->
  let s := CdkFargateFrontWithVpcDeploymentStack props in
  let secret := Js.ToString (appName props) +:+ "-StreamlitCloudFrontDistribution" in
  through_edge s viewer
  = inr (Elbv2.forward
           [Elbv2.targetGroupOf (Ecs.service_id (FargateStack.fargateService s))])
  <-> In ("X-Verify-Origin", secret) (headers viewer).
Proof.
  intros Hmethod s secret. split.
  - intros Hforward.
    destruct (existsb (Elbv2.header_is "X-Verify-Origin" secret) (headers viewer)) eqn:X;
      [apply carries_header in X; exact X|].
    assert (~ In ("X-Verify-Origin", secret) (headers viewer)) as Hout
      by (intros Hin; apply carries_header in Hin; congruence).
    pose proof (edge_requests_are_redirected props viewer Hmethod Hout) as R.
    cbv zeta in R. fold s in R. rewrite R in Hforward. discriminate Hforward.
  - intros Hin.
    pose proof (handler_other {| Cloudfront.request := viewer |} Hmethod) as E.
    unfold through_edge, Cloudfront.serve.
    change (Cloudfront.functionAssociations
              (Cloudfront.defaultBehavior (FargateStack.streamlitDistribution s)))
      with [({| Cloudfront.function_id := app_env_platform props +:+ "-CorsFunction";
                Cloudfront.code := Cloudfront.handler |}, Cloudfront.VIEWER_REQUEST)].
    cbn [Cloudfront.viewer_request Cloudfront.code]. rewrite E.
    unfold s at 1. rewrite at_load_balancer_cases.
    replace (existsb _ _) with true; [reflexivity|].
    symmetry. apply carries_header.
    unfold Cloudfront.origin_headers.
    cbn [headers s CdkFargateFrontWithVpcDeploymentStack
         FargateStack.streamlitDistribution Cloudfront.defaultBehavior
         Cloudfront.origin Cloudfront.customHeaders
         Cloudfront.originRequestPolicy Cloudfront.headerBehavior Cloudfront.request].
    apply in_or_app. right. apply filter_In. split; [exact Hin|].
    cbn [fst]. rewrite lookup_singleton_ne by discriminate. reflexivity.
Qed.

Lemma edge_path_needs_viewer_header_witness :
  through_edge (CdkFargateFrontWithVpcDeploymentStack demo_ecs_props)
    {| method := "GET"; uri := "/";
       headers := [("X-Verify-Origin", "demo-StreamlitCloudFrontDistribution")] |}
  = inr (Elbv2.forward [Elbv2.targetGroupOf "demo-dev-arm-FargateService"]).
Proof.
  apply (edge_path_needs_viewer_header demo_ecs_props
           {| method := "GET"; uri := "/";
              headers := [("X-Verify-Origin", "demo-StreamlitCloudFrontDistribution")] |}).
  - discriminate.
  - left. reflexivity.
Defined.

(** X12.  The two pushes never go to the same destination: when the
    image version is not [latest], the destinations differ whatever
    addresses the provider assigns. *)
Theorem pushes_do_not_overwrite (props : StreamlitEcrStackProps)
  (rho : string -> Cdk.Attr -> string) :
  imageVersion props <> Js.str "latest" ->
  List.NoDup
    (map (fun d => Cdk.resolve rho (Ecr.dest d))
       (EcrStack.deployments (StreamlitEcrDeploymentCdkStack props))).
Proof.
  intros Hv.
  cbn [StreamlitEcrDeploymentCdkStack EcrStack.deployments].
  rewrite deployImageVersions_other by exact Hv.
  cbn [map Ecr.dest Ecr.repositoryUri app Cdk.resolve fold_right].
  constructor; [|constructor; [intros []|constructor]].
  cbn [In]. intros [E|[]].
  apply append_inv_head in E. apply (append_inv_head ":") in E.
  apply append_inv_tail in E.
  destruct (imageVersion props) as [|v]; [discriminate E|].
  simpl in E. subst v. apply Hv. reflexivity.
Qed.

Lemma pushes_do_not_overwrite_witness :
  List.NoDup
    (map (fun d => Cdk.resolve (fun _ _ => "registry.example/demo") (Ecr.dest d))
       (EcrStack.deployments (StreamlitEcrDeploymentCdkStack (demo_ecr_props "1.2.0")))).
Proof.
  apply (pushes_do_not_overwrite (demo_ecr_props "1.2.0")). discriminate.
Defined.

(** ** More on [parseInt] *)

Lemma negated_to_number (m : N) :
  negated (Js.to_number false m) = Js.to_number true m.
Proof. unfold Js.to_number. destruct (Js.round_to_double m); reflexivity. Qed.

(** X13.  [parseInt] skips any white space before the text; and it
    reads a sign in front of a text that starts with neither white space
    nor a sign: with [-] the result is the number of opposite sign (so
    [NaN] stays [NaN]), with [+] it is unchanged. *)
Theorem parseInt_space_and_sign (ws s : string) :
  Numeral.every Js.is_white_space ws = true ->
  Js.parseInt (Js.str (ws +:+ s)) = Js.parseInt (Js.str s)
  /\ (Numeral.starts_with Numeral.is_space_or_sign s = false ->
      Js.parseInt (Js.str (ws +:+ "-" +:+ s)) = negated (Js.parseInt (Js.str s))
      /\ Js.parseInt (Js.str (ws +:+ "+" +:+ s)) = Js.parseInt (Js.str s)).
Proof.
  intros Hws. split.
  - unfold Js.parseInt. cbn [Js.ToString].
    rewrite trim_start_spaces by exact Hws. reflexivity.
  - intros Hs.
    pose proof (sign_split "" Numeral.no_sign s eq_refl (fun _ => Hs)) as E0.
    pose proof (sign_split ws Numeral.minus s Hws (fun _ => Hs)) as E2.
    pose proof (sign_split ws Numeral.plus s Hws (fun _ => Hs)) as E3.
    cbn [Numeral.sign_text Numeral.negative] in E0, E2, E3.
    change ("" +:+ "" +:+ s) with s in E0.
    unfold Js.parseInt. cbn [Js.ToString].
    rewrite E0, E2, E3.
    destruct (Js.split_radix s) as [R S2].
    destruct (Js.digits_prefix R S2) as [|d ds]; [split; reflexivity|].
    split; [|reflexivity].
    symmetry. apply negated_to_number.
Qed.

Lemma parseInt_space_and_sign_witness :
  Js.parseInt (Js.str "  8501") = Js.parseInt (Js.str "8501")
  /\ Js.parseInt (Js.str "  -8501") = Js.Num true 8501.
Proof.
  destruct (parseInt_space_and_sign "  " "8501" eq_refl) as (H1 & H2).
  split; [exact H1 | exact (proj1 (H2 eq_refl))].
Defined.

Lemma positional_bound (ds : string) :
  Numeral.every Numeral.is_decimal ds = true ->
  Numeral.positional 10 Numeral.decimal_digit ds < 10 ^ N.of_nat (String.length ds).
Proof.
  induction ds as [|c ds IH]; intros H; [reflexivity|].
  cbn [Numeral.every] in H. apply andb_true_iff in H as [Hc Hds].
  specialize (IH Hds).
  cbn [Numeral.positional String.length].
  rewrite Nat2N.inj_succ, N.pow_succ_r'.
  assert (Numeral.decimal_digit c <= 9) as Hd.
  { unfold Numeral.is_decimal, Numeral.decimal_digit in *.
    apply andb_true_iff in Hc as [_ Hc]. apply N.leb_le in Hc. lia. }
  nia.
Qed.

(** X14.  A decimal numeral of at most 15 digits is read exactly: after
    white space and sign, [parseInt] gives the value of the digits, which
    is below 10^15, with no rounding, whatever follows the digits. *)
Theorem parseInt_exact_up_to_15_digits (ws : string) (sg : Numeral.Sign)
  (ds rest : string) :
  Numeral.every Js.is_white_space ws = true ->
  Numeral.starts_with Numeral.is_decimal ds = true ->
  Numeral.every Numeral.is_decimal ds = true ->
  (String.length ds <= 15)%nat ->
  Numeral.starts_with Numeral.is_decimal rest = false ->
  Numeral.hex_marked (ds +:+ rest) = false ->
  let value := Numeral.positional 10 Numeral.decimal_digit ds in
  value < 10 ^ 15
  /\ Js.parseInt (Js.str (ws +:+ Numeral.sign_text sg +:+ ds +:+ rest))
     = Js.Num (Numeral.negative sg) value.
Proof.
  intros Hws Hstart Hds Hlen Hrest Hhex value.
  assert (value < 10 ^ 15) as Hvalue.
  { pose proof (positional_bound ds Hds) as B. fold value in B.
    eapply N.lt_le_trans; [exact B|].
    apply N.pow_le_mono_r; lia. }
  split; [exact Hvalue|].
  rewrite (parseInt_decimal ws sg ds rest Hws Hstart Hds Hrest Hhex).
  apply to_number_exact. fold value.
  eapply N.lt_trans; [exact Hvalue|]. reflexivity.
Qed.

Lemma parseInt_exact_up_to_15_digits_witness :
  Js.parseInt (Js.str " +65535:tcp") = Js.lit 65535.
Proof.
  apply (proj2 (parseInt_exact_up_to_15_digits " " Numeral.plus "65535" ":tcp"
                  eq_refl eq_refl eq_refl ltac:(cbn; lia) eq_refl eq_refl)).
Defined.

(** ** The compute stack without the gate *)

Lemma no_custom_headers (hs : list (string * string)) :
  List.filter
    (fun h => match (∅ : gmap string string) !! fst h with
              | None => true
              | Some _ => false
              end) hs
  = hs.
Proof.
  induction hs as [|h hs IH]; [reflexivity|].
  cbn [List.filter]. rewrite lookup_empty, IH. reflexivity.
Qed.

(** X15.  The first constructor declares no listener rule and no custom
    header: at its load balancer every request is forwarded to the
    service, whatever it carries; through its edge a request that is not
    a preflight goes to the origin unchanged and reaches the service. *)
Theorem plain_stack_is_open (props : StreamlitEcsStackProps) (req : HttpRequest) :
  let s := PlainStack.CdkFargateFrontWithVpcDeploymentStack props in
  let service :=
    Elbv2.forward [Elbv2.targetGroupOf (Ecs.service_id (PlainStack.fargateService s))] in
  PlainStack.at_load_balancer s req = service
  /\ (method req <> "OPTIONS" ->
      PlainStack.serve (PlainStack.streamlitDistribution s) req = Cloudfront.to_origin req
      /\ PlainStack.through_edge s req = inr service).
Proof.
  intros s service. split; [reflexivity|]. intros Hmethod.
  pose proof (handler_other {| Cloudfront.request := req |} Hmethod) as E.
  assert (PlainStack.serve (PlainStack.streamlitDistribution s) req
          = Cloudfront.to_origin req) as S.
  { unfold PlainStack.serve, PlainStack.origin_headers.
    cbn [s PlainStack.CdkFargateFrontWithVpcDeploymentStack
         PlainStack.streamlitDistribution PlainStack.defaultBehavior
         PlainStack.functionAssociations PlainStack.origin
         PlainStack.originRequestPolicy Cloudfront.customHeaders
         Cloudfront.headerBehavior Cloudfront.viewer_request Cloudfront.code].
    rewrite E. cbn [Cloudfront.request].
    rewrite map_to_list_empty, no_custom_headers.
    destruct req; reflexivity. }
  split; [exact S|].
  unfold PlainStack.through_edge. rewrite S. reflexivity.
Qed.

Lemma plain_stack_is_open_witness :
  PlainStack.through_edge (PlainStack.CdkFargateFrontWithVpcDeploymentStack demo_ecs_props)
    {| method := "GET"; uri := "/"; headers := [("Host", "edge")] |}
  = inr (Elbv2.forward [Elbv2.targetGroupOf "demo-dev-arm-FargateService"]).
Proof.
  apply (plain_stack_is_open demo_ecs_props
           {| method := "GET"; uri := "/"; headers := [("Host", "edge")] |}).
  discriminate.
Defined.

(** For the same props the two constructors name their output and
    its export alike; the first gives the bare domain of its distribution
    as the value, the second the same domain after [https://]. *)
Theorem outputs_differ_by_scheme (props : StreamlitEcsStackProps) :
  exists plain gated,
    PlainStack.outputs (PlainStack.CdkFargateFrontWithVpcDeploymentStack props) = [plain]
    /\ FargateStack.outputs (CdkFargateFrontWithVpcDeploymentStack props) = [gated]
    /\ Cdk.output_id plain = Cdk.output_id gated
    /\ Cdk.exportName plain = Cdk.exportName gated
    /\ forall rho,
        Cdk.resolve rho (Cdk.value plain)
        = rho (app_env_platform props +:+ "-StreamlitDistribution")
            Cdk.DistributionDomainName
        /\ Cdk.resolve rho (Cdk.value gated)
           = "https://" +:+ Cdk.resolve rho (Cdk.value plain).
Proof.
  eexists _, _. split; [reflexivity|]. split; [reflexivity|].
  split; [reflexivity|]. split; [reflexivity|].
  intros rho. split; [apply resolve_ref | reflexivity].
Qed.

(** X16.  In the first constructor the two groups that admit any address
    on ports 80 and 443 are attached to nothing: the load balancer has
    the group that admits port 80 only, and the service has the compute
    group, whose inbound rules are the three of the gated stack. *)
Theorem plain_stack_groups (props : StreamlitEcsStackProps) :
  let s := PlainStack.CdkFargateFrontWithVpcDeploymentStack props in
  let balancer := PlainStack.loadBalancerSecurityGroup s in
  let compute := PlainStack.ecsSecurityGroup s in
  let attached := [Ec2.id balancer; Ec2.id compute] in
  Elbv2.securityGroup (PlainStack.loadBalancer s) = Ec2.id balancer
  /\ Ecs.securityGroups (PlainStack.fargateService s) = [Ec2.id compute]
  /\ ~ In (Ec2.id (PlainStack.httpSG s)) attached
  /\ ~ In (Ec2.id (PlainStack.httpsSG s)) attached
  /\ Ec2.ingress (PlainStack.httpsSG s) = [(Ec2.anyIpv4, Ec2.tcp (Js.lit 443))]
  /\ Ec2.ingress balancer = [(Ec2.ipv4 "0.0.0.0/0", Ec2.tcp (Js.lit 80))]
  /\ Ec2.ingress compute
     = [ (Ec2.peer balancer, Ec2.tcp (Js.lit 80));
         (Ec2.peer balancer, Ec2.tcp (containerPort props));
         (Ec2.peer compute, Ec2.allTraffic) ]
  /\ map snd (Ec2.ingress compute)
     = map snd
         (Ec2.ingress
            (FargateStack.ecsSecurityGroup (CdkFargateFrontWithVpcDeploymentStack props))).
Proof.
  intros s balancer compute attached.
  split; [reflexivity|]. split; [reflexivity|].
  split; [|split; [|repeat split]].
  - subst attached balancer compute s.
    cbn [PlainStack.CdkFargateFrontWithVpcDeploymentStack PlainStack.httpSG
         PlainStack.loadBalancerSecurityGroup PlainStack.ecsSecurityGroup
         Ec2.id Ec2.new Ec2.addIngressRule].
    none_equal.
  - subst attached balancer compute s.
    cbn [PlainStack.CdkFargateFrontWithVpcDeploymentStack PlainStack.httpsSG
         PlainStack.loadBalancerSecurityGroup PlainStack.ecsSecurityGroup
         Ec2.id Ec2.new Ec2.addIngressRule].
    none_equal.
Qed.
